(** * TCFProcessor: a shallow embedding of [main.py] and its properties

    The class [TCFProcessor] resolves a decoded IAB TCF consent object
    against two JSON reference files, the Global Vendor List (GVL) and the
    CMP list.  Its methods are embedded as computations in a state and
    exception monad over the instance attributes; the JSON values, the
    dictionaries and Python's truthiness and [dict.get] are written out.

    Not modelled: the text written by [print]; JSON numbers other than
    integers (every identifier of the GVL and of the CMP list is one). *)

From Stdlib Require Import ZArith Ascii String List Sorting.Sorted.
From stdpp Require Import base option list gmap strings pretty sorting.

Local Open Scope string_scope.
Local Open Scope Z_scope.
Local Set Warnings "-register-all".

(** ** Values *)

(** A value read by [json.load]; a JSON object is the list of its items in
    the order of the file. *)
Inductive json : Type :=
  | JNull
  | JBool (b : bool)
  | JInt (z : Z)
  | JStr (s : string)
  | JList (l : list json)
  | JObj (o : list (string * json)).

(** A Python [dict] with string keys, as the list of its items. *)
Abbreviation dict := (list (string * json)).

(** Python's truth value of a JSON value: [None], [False], [0], the empty
    string, the empty list and the empty dict are false. *)
Definition truthy (j : json) : bool :=
  match j with
  | JNull => false
  | JBool b => b
  | JInt z => negb (z =? 0)
  | JStr s => negb (String.eqb s "")
  | JList l => match l with [] => false | _ => true end
  | JObj o => match o with [] => false | _ => true end
  end.

Definition dict_truthy (d : dict) : bool :=
  match d with [] => false | _ => true end.

(** [d.get(k)]: the first item under key [k]. *)
Fixpoint dict_lookup (k : string) (d : dict) : option json :=
  match d with
  | [] => None
  | (k', v) :: d' => if String.eqb k k' then Some v else dict_lookup k d'
  end.

(** [d[k] = v]: the value is replaced in place when the key exists, the
    item is appended otherwise. *)
Fixpoint dict_set (k : string) (v : json) (d : dict) : dict :=
  match d with
  | [] => [(k, v)]
  | (k', v') :: d' =>
      if String.eqb k k' then (k, v) :: d' else (k', v') :: dict_set k v d'
  end.

(** [{str(k): v for k, v in d.items()}]; the keys of a parsed JSON object
    are strings already, [str] leaves them as they are. *)
Definition str_keyed (d : dict) : dict :=
  fold_left (fun acc kv => dict_set (fst kv) (snd kv) acc) d [].

(** [str(n)] for an [int]. *)
Definition str_of_int (n : Z) : string := pretty n.

(** ** Exceptions and results *)

Inductive exn_class : Type :=
  | FileNotFoundError
  | JSONDecodeError
  | AttributeError
  | TypeError
  | ValueError
  | OSError
  | OverflowError
  | OtherError.

(** A raised exception: its class and [str(e)]. *)
Record exn : Type := Exn { exn_kind : exn_class; exn_msg : string }.

Inductive Res (A : Type) : Type :=
  | Ok (a : A)
  | Raise (e : exn).
Arguments Ok {A} a.
Arguments Raise {A} e.

Definition is_ok {A} (r : Res A) : bool :=
  match r with Ok _ => true | Raise _ => false end.

(** ** The decoded consent object *)

(** The scalar attribute values [get_metadata] tells apart. *)
Record datetime : Type := Datetime { dt_micros : Z; dt_utcoffset : option Z }.

Inductive attrval : Type :=
  | ANone
  | AInt (z : Z)
  | ABool (b : bool)
  | AStr (s : string)
  | ABytes (b : list Byte.byte)
  | ADatetime (d : datetime).

(** The object returned by [iab_tcf.decode].  An attribute that the object
    lacks ([hasattr] is false) is [None] here; [cmp_id] is [None] or an
    [int]; the two vendor maps are dicts from vendor id to [bool], given by
    their items in iteration order. *)
Record ConsentObject : Type := {
  co_scalars : list (string * attrval);
  co_cmp_id : option (option Z);
  co_consented_vendors : option (list (Z * bool));
  co_legitimate_interest_vendors : option (list (Z * bool))
}.

Fixpoint scalar_lookup (k : string) (l : list (string * attrval)) : option attrval :=
  match l with
  | [] => None
  | (k', v) :: l' => if String.eqb k k' then Some v else scalar_lookup k l'
  end.

(** [getattr(co, name, None)]. *)
Definition getattr_or_none (co : ConsentObject) (name : string) : attrval :=
  if String.eqb name "cmp_id" then
    match co_cmp_id co with
    | Some (Some z) => AInt z
    | _ => ANone
    end
  else default ANone (scalar_lookup name (co_scalars co)).

(** ** The instance and the monad of its methods *)

Record Processor : Type := {
  consent_string : string;
  gvl_filepath : string;
  cmp_list_filepath : string;
  gvl_data : option json;
  gvl_vendors_dict : dict;
  cmp_list_data : option json;
  cmp_list_dict : dict;
  consent_object : option ConsentObject;
  error_state : option string
}.

(** A method body: it reads and writes [self] and returns or raises; what
    it wrote before raising stays written. *)
Definition M (A : Type) : Type := Processor -> Res A * Processor.

Definition ret {A} (a : A) : M A := fun self => (Ok a, self).

Definition bind {A B} (m : M A) (k : A -> M B) : M B :=
  fun self =>
    match m self with
    | (Ok a, self') => k a self'
    | (Raise e, self') => (Raise e, self')
    end.

Definition raise {A} (e : exn) : M A := fun self => (Raise e, self).

(** [self.attr] *)
Definition attr {A} (f : Processor -> A) : M A := fun self => (Ok (f self), self).

(** [self.attr = v], through the setter of the attribute. *)
Definition assign (set : Processor -> Processor) : M unit :=
  fun self => (Ok tt, set self).

(** [try: m  except Exception as e: h e] *)
Definition try_except {A} (m : M A) (h : exn -> M A) : M A :=
  fun self =>
    match m self with
    | (Ok a, self') => (Ok a, self')
    | (Raise e, self') => h e self'
    end.

(** A value that is computed without [self]. *)
Definition lift {A} (r : Res A) : M A := fun self => (r, self).

Declare Scope py_scope.
Delimit Scope py_scope with py.
Notation "x ← y ; z" := (bind y (fun x => z))
  (at level 20, y at level 100, z at level 200, only parsing) : py_scope.
Notation "x ;; z" := (bind x (fun _ => z))
  (at level 100, z at level 200, only parsing, right associativity) : py_scope.
Local Open Scope py_scope.

(** [for x in l: acc = body x acc] *)
Fixpoint for_each {A S} (l : list A) (body : A -> S -> M S) (acc : S) : M S :=
  match l with
  | [] => ret acc
  | x :: l' => acc' ← body x acc; for_each l' body acc'
  end.

(** [[f x for x in l]] *)
Fixpoint comprehension {A B} (f : A -> M B) (l : list A) : M (list B) :=
  match l with
  | [] => ret []
  | x :: l' => y ← f x; ys ← comprehension f l'; ret (y :: ys)
  end.

Definition set_gvl_data (v : option json) (p : Processor) : Processor :=
  {| consent_string := consent_string p; gvl_filepath := gvl_filepath p;
     cmp_list_filepath := cmp_list_filepath p; gvl_data := v;
     gvl_vendors_dict := gvl_vendors_dict p; cmp_list_data := cmp_list_data p;
     cmp_list_dict := cmp_list_dict p; consent_object := consent_object p;
     error_state := error_state p |}.

Definition set_gvl_vendors_dict (v : dict) (p : Processor) : Processor :=
  {| consent_string := consent_string p; gvl_filepath := gvl_filepath p;
     cmp_list_filepath := cmp_list_filepath p; gvl_data := gvl_data p;
     gvl_vendors_dict := v; cmp_list_data := cmp_list_data p;
     cmp_list_dict := cmp_list_dict p; consent_object := consent_object p;
     error_state := error_state p |}.

Definition set_cmp_list_data (v : option json) (p : Processor) : Processor :=
  {| consent_string := consent_string p; gvl_filepath := gvl_filepath p;
     cmp_list_filepath := cmp_list_filepath p; gvl_data := gvl_data p;
     gvl_vendors_dict := gvl_vendors_dict p; cmp_list_data := v;
     cmp_list_dict := cmp_list_dict p; consent_object := consent_object p;
     error_state := error_state p |}.

Definition set_cmp_list_dict (v : dict) (p : Processor) : Processor :=
  {| consent_string := consent_string p; gvl_filepath := gvl_filepath p;
     cmp_list_filepath := cmp_list_filepath p; gvl_data := gvl_data p;
     gvl_vendors_dict := gvl_vendors_dict p; cmp_list_data := cmp_list_data p;
     cmp_list_dict := v; consent_object := consent_object p;
     error_state := error_state p |}.

Definition set_consent_object (v : option ConsentObject) (p : Processor) : Processor :=
  {| consent_string := consent_string p; gvl_filepath := gvl_filepath p;
     cmp_list_filepath := cmp_list_filepath p; gvl_data := gvl_data p;
     gvl_vendors_dict := gvl_vendors_dict p; cmp_list_data := cmp_list_data p;
     cmp_list_dict := cmp_list_dict p; consent_object := v;
     error_state := error_state p |}.

Definition set_error_state (v : option string) (p : Processor) : Processor :=
  {| consent_string := consent_string p; gvl_filepath := gvl_filepath p;
     cmp_list_filepath := cmp_list_filepath p; gvl_data := gvl_data p;
     gvl_vendors_dict := gvl_vendors_dict p; cmp_list_data := cmp_list_data p;
     cmp_list_dict := cmp_list_dict p; consent_object := consent_object p;
     error_state := v |}.

(** ** Python operations on JSON values *)

(** [j.get(k, dflt)]: only a dict has the method. *)
Definition py_get (j : json) (k : string) (dflt : json) : Res json :=
  match j with
  | JObj o => Ok (default dflt (dict_lookup k o))
  | _ => Raise (Exn AttributeError "object has no attribute 'get'")
  end.

(** [j.items()] *)
Definition py_items (j : json) : Res dict :=
  match j with
  | JObj o => Ok o
  | _ => Raise (Exn AttributeError "object has no attribute 'items'")
  end.

(** [isinstance(j, dict)] *)
Definition is_dict (j : json) : bool :=
  match j with JObj _ => true | _ => false end.

(** [v if v else w], for the optional string held by [error_state]. *)
Definition str_truthy (o : option string) : bool :=
  match o with
  | Some s => negb (String.eqb s "")
  | None => false
  end.

Definition or_else (o : option string) (w : string) : string :=
  match o with
  | Some s => if String.eqb s "" then w else s
  | None => w
  end.

(** [issubclass(c, d)] for the classes above: a class descends from
    itself, [FileNotFoundError] from [OSError], and [json.JSONDecodeError]
    from [ValueError]; [OtherError] stands for a class that descends from
    none of the others. *)
Definition subclass (c d : exn_class) : bool :=
  match c, d with
  | FileNotFoundError, FileNotFoundError | JSONDecodeError, JSONDecodeError
  | AttributeError, AttributeError | TypeError, TypeError
  | ValueError, ValueError | OSError, OSError
  | OverflowError, OverflowError | OtherError, OtherError => true
  | FileNotFoundError, OSError => true
  | JSONDecodeError, ValueError => true
  | _, _ => false
  end.

(** The exception is caught by [except c]: its class is [c] or descends
    from it. *)
Definition exn_is (c : exn_class) (e : exn) : bool := subclass (exn_kind e) c.

(** * The class *)

Section TCFProcessor.

(** The collaborators of the class: [open] followed by [json.load] on a
    path, [iab_tcf.decode], and the renderings of [datetime] and [bytes]
    values that [get_metadata] calls. *)
Variable read_json : string -> Res json.
Variable decode : string -> Res ConsentObject.
Variable isoformat_utc : datetime -> Res string.
Variable datetime_str : datetime -> string.
Variable decode_utf8_replace : list Byte.byte -> Res string.

(** ** Construction *)

(** [_load_gvl].  The source stores the value under ['vendors'] in
    [gvl_vendors_dict] before it calls [items()] on it; when that call
    raises, the handler overwrites the attribute, so the intermediate
    value is never seen and only the call is kept here.  The three
    [except] clauses have the same effect on the attributes. *)
Definition _load_gvl : M unit :=
  try_except
    (path ← attr gvl_filepath;
     data ← lift (read_json path);
     assign (set_gvl_data (Some data));;
     vendors ← lift (py_get data "vendors" (JObj []));
     items ← lift (py_items vendors);
     assign (set_gvl_vendors_dict (str_keyed items)))
    (fun _ => assign (set_gvl_vendors_dict [])).

(** [_load_cmp_list] *)
Definition _load_cmp_list : M unit :=
  try_except
    (path ← attr cmp_list_filepath;
     data ← lift (read_json path);
     assign (set_cmp_list_data (Some data));;
     if is_dict data then
       potential_dict ← lift (py_get data "cmps" data);
       if is_dict potential_dict then
         items ← lift (py_items potential_dict);
         assign (set_cmp_list_dict (str_keyed items))
       else assign (set_cmp_list_dict [])
     else assign (set_cmp_list_dict []))
    (fun _ => assign (set_cmp_list_dict [])).

(** [_decode_tcf] *)
Definition _decode_tcf : M unit :=
  cs ← attr consent_string;
  if String.eqb cs "" then
    assign (set_error_state (Some "Consent string is empty."));;
    assign (set_consent_object None)
  else
    try_except
      (co ← lift (decode cs);
       assign (set_consent_object (Some co)))
      (fun e =>
         assign (set_error_state (Some ("Failed to decode TCF string: " +:+ exn_msg e)));;
         assign (set_consent_object None)).

(** [__init__]: [consent_string] is [None] when the argument is not a
    [str]; the result is the outcome of the body and the instance built. *)
Definition __init__ (consent_string : option string)
    (gvl_filepath cmp_list_filepath : string) : Res unit * Processor :=
  (_load_gvl;; _load_cmp_list;; _decode_tcf)
    {| consent_string := default "" consent_string;
       gvl_filepath := gvl_filepath;
       cmp_list_filepath := cmp_list_filepath;
       gvl_data := None;
       gvl_vendors_dict := [];
       cmp_list_data := None;
       cmp_list_dict := [];
       consent_object := None;
       error_state := None |}.

(** ** Internal helpers *)

(** [_get_vendor_gvl_data] *)
Definition _get_vendor_gvl_data (vendor_id : Z) : M json :=
  d ← attr gvl_vendors_dict;
  if negb (dict_truthy d) then ret (JObj [])
  else ret (default (JObj []) (dict_lookup (str_of_int vendor_id) d)).

(** [_get_vendor_details] *)
Definition _get_vendor_details (vendor_id : Z) : M dict :=
  vendor_gvl_data ← _get_vendor_gvl_data vendor_id;
  d ← attr gvl_vendors_dict;
  let is_gvl_loaded := dict_truthy d in
  name ← (if negb is_gvl_loaded then ret (JStr "unknown (GVL not loaded)")
          else if negb (truthy vendor_gvl_data) then ret (JStr "unknown (Not in GVL)")
          else lift (py_get vendor_gvl_data "name" (JStr "unknown")));
  id ← lift (py_get vendor_gvl_data "id" (JInt vendor_id));
  purposes ← lift (py_get vendor_gvl_data "purposes" (JList []));
  legIntPurposes ← lift (py_get vendor_gvl_data "legIntPurposes" (JList []));
  flexiblePurposes ← lift (py_get vendor_gvl_data "flexiblePurposes" (JList []));
  specialPurposes ← lift (py_get vendor_gvl_data "specialPurposes" (JList []));
  features ← lift (py_get vendor_gvl_data "features" (JList []));
  specialFeatures ← lift (py_get vendor_gvl_data "specialFeatures" (JList []));
  policyUrl ← lift (py_get vendor_gvl_data "policyUrl" (JStr ""));
  cookieMaxAgeSeconds ← lift (py_get vendor_gvl_data "cookieMaxAgeSeconds" JNull);
  usesCookies ← lift (py_get vendor_gvl_data "usesCookies" (JBool false));
  cookieRefresh ← lift (py_get vendor_gvl_data "cookieRefresh" (JBool false));
  usesNonCookieAccess ← lift (py_get vendor_gvl_data "usesNonCookieAccess" (JBool false));
  deviceStorageDisclosureUrl ←
    lift (py_get vendor_gvl_data "deviceStorageDisclosureUrl" (JStr ""));
  ret [("id", id);
       ("name", name);
       ("purposes", purposes);
       ("legIntPurposes", legIntPurposes);
       ("flexiblePurposes", flexiblePurposes);
       ("specialPurposes", specialPurposes);
       ("features", features);
       ("specialFeatures", specialFeatures);
       ("policyUrl", policyUrl);
       ("cookieMaxAgeSeconds", cookieMaxAgeSeconds);
       ("usesCookies", usesCookies);
       ("cookieRefresh", cookieRefresh);
       ("usesNonCookieAccess", usesNonCookieAccess);
       ("deviceStorageDisclosureUrl", deviceStorageDisclosureUrl)].

(** ** Public methods *)

(** [_safe_get], the local function of [get_metadata]; [getattr] with a
    default answers [None] on any object. *)
Definition _safe_get (attr_name : string) : M json :=
  co ← attr consent_object;
  let val := match co with
             | Some co => getattr_or_none co attr_name
             | None => ANone
             end in
  match val with
  | ADatetime d =>
      try_except
        (s ← lift (isoformat_utc d); ret (JStr s))
        (fun e => if exn_is ValueError e || exn_is OSError e
                  then ret (JStr (datetime_str d))
                  else raise e)
  | ABytes b =>
      try_except
        (s ← lift (decode_utf8_replace b); ret (JStr s))
        (fun _ => ret (JStr ("<bytes: " +:+ pretty (length b) +:+ " bytes>")))
  | ANone => ret JNull
  | AInt z => ret (JInt z)
  | ABool b => ret (JBool b)
  | AStr s => ret (JStr s)
  end.

(** [get_metadata] *)
Definition get_metadata : M dict :=
  co ← attr consent_object;
  if negb (bool_decide (is_Some co)) then
    let msg := "Cannot get metadata, consent object not available (decoding may have failed)." in
    es ← attr error_state;
    ret [("error", JStr (or_else es msg))]
  else
    tcf_version ← _safe_get "version";
    created ← _safe_get "created";
    last_updated ← _safe_get "last_updated";
    cmp_id ← _safe_get "cmp_id";
    cmp_version ← _safe_get "cmp_version";
    consent_screen ← _safe_get "consent_screen";
    vendor_list_version ← _safe_get "vendor_list_version";
    tcf_policy_version ← _safe_get "tcf_policy_version";
    consent_language ← _safe_get "consent_language";
    publisher_cc ← _safe_get "publisher_cc";
    is_service_specific ← _safe_get "is_service_specific";
    purpose_one_treatment ← _safe_get "purpose_one_treatment";
    use_non_standard_stacks ← _safe_get "use_non_standard_stacks";
    let metadata :=
      [("tcf_version", tcf_version);
       ("created", created);
       ("last_updated", last_updated);
       ("cmp_id", cmp_id);
       ("cmp_version", cmp_version);
       ("consent_screen", consent_screen);
       ("vendor_list_version", vendor_list_version);
       ("tcf_policy_version", tcf_policy_version);
       ("consent_language", consent_language);
       ("publisher_cc", publisher_cc);
       ("is_service_specific", is_service_specific);
       ("purpose_one_treatment", purpose_one_treatment);
       ("use_non_standard_stacks", use_non_standard_stacks)] in
    es ← attr error_state;
    if str_truthy es
    then ret (dict_set "initialization_error" (JStr (default "" es)) metadata)
    else ret metadata.

(** The guard [not self.consent_object or self.error_state] of the
    consent queries. *)
Definition unavailable : M bool :=
  co ← attr consent_object;
  es ← attr error_state;
  ret (negb (bool_decide (is_Some co)) || str_truthy es).

(** [self.consent_object.<map>], read after the guard and the [hasattr]
    test have passed. *)
Definition vendor_map (f : ConsentObject -> option (list (Z * bool))) :
    M (option (list (Z * bool))) :=
  co ← attr consent_object;
  ret (co ≫= f).

(** [get_consented_vendors] *)
Definition get_consented_vendors (include_details : bool) : M (list json) :=
  bad ← unavailable;
  if bad then ret []
  else
    m ← vendor_map co_consented_vendors;
    match m with
    | None => ret []
    | Some vendor_consents_dict =>
        let consented_vendor_ids :=
          map fst (filter (fun kv => snd kv = true) vendor_consents_dict) in
        match consented_vendor_ids with
        | [] => ret []
        | _ =>
            if negb include_details then ret (map JInt consented_vendor_ids)
            else comprehension
                   (fun vid => d ← _get_vendor_details vid; ret (JObj d))
                   consented_vendor_ids
        end
    end.

Definition json_of_cmp_id (cmp_id : option Z) : json :=
  match cmp_id with
  | Some z => JInt z
  | None => JNull
  end.

(** [str(cmp_id)] and the [{cmp_id}] of an f-string. *)
Definition str_of_cmp_id (cmp_id : option Z) : string :=
  match cmp_id with
  | Some z => str_of_int z
  | None => "None"
  end.

Definition cmp_id_truthy (cmp_id : option Z) : bool :=
  match cmp_id with
  | Some z => negb (z =? 0)
  | None => false
  end.

(** [get_cmp_details] *)
Definition get_cmp_details : M json :=
  co ← attr consent_object;
  match co with
  | None =>
      let msg := "Cannot get CMP details, consent object not available." in
      es ← attr error_state;
      ret (JObj [("error", JStr (or_else es msg))])
  | Some co =>
      match co_cmp_id co with
      | None =>
          let msg := "Consent object missing 'cmp_id' attribute." in
          ret (JObj [("error", JStr msg)])
      | Some cmp_id =>
          if negb (cmp_id_truthy cmp_id) then
            ret (JObj [("id", json_of_cmp_id cmp_id);
                       ("name", JStr "unknown (CMP ID not set)")])
          else
            d ← attr cmp_list_dict;
            if negb (dict_truthy d) then
              let msg := "Cannot get CMP details, CMP list failed to load or is empty." in
              ret (JObj [("id", json_of_cmp_id cmp_id);
                         ("name", JStr "unknown (CMP list not loaded)");
                         ("error", JStr msg)])
            else
              let cmp_id_str := str_of_cmp_id cmp_id in
              let cmp_details := default JNull (dict_lookup cmp_id_str d) in
              if truthy cmp_details then ret cmp_details
              else
                let msg := "CMP ID " +:+ str_of_cmp_id cmp_id
                           +:+ " not found in the loaded CMP list data." in
                ret (JObj [("id", json_of_cmp_id cmp_id);
                           ("name", JStr "unknown (Not found in CMP list)");
                           ("error", JStr msg)])
      end
  end.

(** [get_vendors_using_legitimate_interest] *)
Definition get_vendors_using_legitimate_interest : M (gmap Z json) :=
  bad ← unavailable;
  if bad then ret ∅
  else
    m ← vendor_map co_legitimate_interest_vendors;
    match m with
    | None => ret ∅
    | Some li_vendors_dict =>
        for_each li_vendors_dict
          (fun '(vendor_id, li_established) (result : gmap Z json) =>
             if li_established : bool then
               vendor_gvl_data ← _get_vendor_gvl_data vendor_id;
               declared_li_purposes ←
                 lift (py_get vendor_gvl_data "legIntPurposes" (JList []));
               name ← lift (py_get vendor_gvl_data "name" (JStr "unknown"));
               ret (<[vendor_id :=
                        JObj [("name", name);
                              ("declared_li_purposes", declared_li_purposes)]]>
                      result)
             else ret result)
          (∅ : gmap Z json)
    end.

(** *** Sets of identifiers *)

(** What [set(j)] iterates over: the elements of a list, the characters of
    a string, the keys of a dict; other values are not iterable. *)
Definition py_iter (j : json) : Res (list json) :=
  match j with
  | JList l => Ok l
  | JStr s => Ok (map (fun c => JStr (String c EmptyString)) (list_ascii_of_string s))
  | JObj o => Ok (map (fun kv => JStr (fst kv)) o)
  | _ => Raise (Exn TypeError "object is not iterable")
  end.

Definition hashable (j : json) : bool :=
  match j with
  | JList _ | JObj _ => false
  | _ => true
  end.

(** The integer a set element is equal to, if any: an [int] is itself,
    and Python has [True == 1] and [False == 0] with equal hashes. *)
Definition int_value (j : json) : option Z :=
  match j with
  | JInt z => Some z
  | JBool b => Some (Z.b2z b)
  | _ => None
  end.

(** Python's [==] between two hashable values. *)
Definition py_eq (a b : json) : bool :=
  match a, b with
  | JNull, JNull => true
  | JStr s, JStr t => String.eqb s t
  | _, _ =>
      match int_value a, int_value b with
      | Some x, Some y => x =? y
      | _, _ => false
      end
  end.

(** A set is the list of its elements.  [set_update s l] inserts the
    elements of [l] into [s] in order: an element equal to one that the
    set holds already is dropped, so of [1] and [True] the first stays. *)
Fixpoint set_update (s l : list json) : list json :=
  match l with
  | [] => s
  | x :: l' =>
      if existsb (py_eq x) s then set_update s l'
      else set_update (s ++ [x])%list l'
  end.

(** [set(j)] *)
Definition py_set (j : json) : Res (list json) :=
  match py_iter j with
  | Ok l => if forallb hashable l then Ok (set_update [] l)
            else Raise (Exn TypeError "unhashable type")
  | Raise e => Raise e
  end.

(** [z in s] for an integer [z]. *)
Definition set_contains (s : list json) (z : Z) : bool :=
  existsb (py_eq (JInt z)) s.

(** [j in r] for a set of integers [r]. *)
Definition in_int_set (r : gset Z) (j : json) : bool :=
  match int_value j with
  | Some z => bool_decide (z ∈ r)
  | None => false
  end.

(** [declared_ids_set.intersection(required_id_set)].  CPython walks the
    smaller of the two sets and keeps those of its elements that the other
    set contains: the result holds the required integers, unless the
    declared set is the smaller one, when it holds the declared values. *)
Definition intersection (declared_ids_set : list json) (required_id_set : gset Z) :
    list json :=
  if (length declared_ids_set <? size required_id_set)%nat
  then filter (fun j => in_int_set required_id_set j) declared_ids_set
  else map JInt (filter (fun z => set_contains declared_ids_set z) (elements required_id_set)).

(** [s == r] for a set [s] and a set of integers [r]: the sizes agree and
    every element of [s] is in [r]. *)
Definition set_equal (s : list json) (r : gset Z) : bool :=
  (length s =? size r)%nat && forallb (in_int_set r) s.

(** The integer an [int] or [bool] counts as in a comparison. *)
Definition int_of (j : json) : Z := default 0 (int_value j).

(** [a <= b] between [int] and [bool] values, which Python compares as
    integers. *)
Definition json_le (a b : json) : Prop := int_of a <= int_of b.

#[global] Instance json_le_dec : RelDecision json_le :=
  fun a b => Z_le_dec (int_of a) (int_of b).

(** [sorted(list(s))] for a set of [int] and [bool] values. *)
Definition sorted (s : list json) : list json := merge_sort json_le s.

(** [_get_consented_vendors_matching_gvl_list] *)
Definition _get_consented_vendors_matching_gvl_list
    (gvl_list_key : string) (required_ids : list Z) (require_all : bool) :
    M (gmap Z json) :=
  bad ← unavailable;
  if bad then ret ∅
  else
    m ← vendor_map co_consented_vendors;
    match m with
    | None => ret ∅
    | Some consented_vendors_map =>
        let required_id_set : gset Z := list_to_set required_ids in
        if bool_decide (required_id_set = ∅) then ret ∅
        else
          for_each consented_vendors_map
            (fun '(vendor_id, consented) (matching_vendors : gmap Z json) =>
               if consented : bool then
                 vendor_gvl_data ← _get_vendor_gvl_data vendor_id;
                 declared_ids_list ← lift (py_get vendor_gvl_data gvl_list_key (JList []));
                 declared_ids_set ← lift (py_set declared_ids_list);
                 let intersection_ids := intersection declared_ids_set required_id_set in
                 let passes_requirement :=
                   match intersection_ids with
                   | [] => false
                   | _ => if require_all
                          then set_equal intersection_ids required_id_set
                          else true
                   end in
                 if passes_requirement then
                   name ← lift (py_get vendor_gvl_data "name" (JStr "unknown"));
                   ret (<[vendor_id :=
                            JObj [("name", name);
                                  ("matched_ids", JList (sorted intersection_ids))]]>
                          matching_vendors)
                 else ret matching_vendors
               else ret matching_vendors)
            (∅ : gmap Z json)
    end.

Definition get_consented_vendors_for_purposes (purpose_ids : list Z) (require_all : bool) :=
  _get_consented_vendors_matching_gvl_list "purposes" purpose_ids require_all.

Definition get_consented_vendors_for_special_purposes (purpose_ids : list Z) (require_all : bool) :=
  _get_consented_vendors_matching_gvl_list "specialPurposes" purpose_ids require_all.

Definition get_consented_vendors_for_features (feature_ids : list Z) (require_all : bool) :=
  _get_consented_vendors_matching_gvl_list "features" feature_ids require_all.

Definition get_consented_vendors_for_special_features (feature_ids : list Z) (require_all : bool) :=
  _get_consented_vendors_matching_gvl_list "specialFeatures" feature_ids require_all.

Definition get_consented_vendors_for_flexible_purposes (purpose_ids : list Z) (require_all : bool) :=
  _get_consented_vendors_matching_gvl_list "flexiblePurposes" purpose_ids require_all.

(** [get_vendor_urls] *)
Definition get_vendor_urls (vendor_id : Z) : M dict :=
  d ← attr gvl_vendors_dict;
  if negb (dict_truthy d) then
    ret [("policyUrl", JStr "");
         ("deviceStorageDisclosureUrl", JStr "");
         ("error", JStr "GVL not loaded or empty")]
  else
    vendor_gvl_data ← _get_vendor_gvl_data vendor_id;
    if negb (truthy vendor_gvl_data) then
      ret [("policyUrl", JStr "");
           ("deviceStorageDisclosureUrl", JStr "");
           ("error", JStr ("Vendor ID " +:+ str_of_int vendor_id +:+ " not found in GVL"))]
    else
      policyUrl ← lift (py_get vendor_gvl_data "policyUrl" (JStr ""));
      deviceStorageDisclosureUrl ←
        lift (py_get vendor_gvl_data "deviceStorageDisclosureUrl" (JStr ""));
      ret [("policyUrl", policyUrl);
           ("deviceStorageDisclosureUrl", deviceStorageDisclosureUrl)].

(** [_get_consented_vendors_by_gvl_flag] *)
Definition _get_consented_vendors_by_gvl_flag (gvl_flag_key : string) : M (gmap Z json) :=
  bad ← unavailable;
  if bad then ret ∅
  else
    m ← vendor_map co_consented_vendors;
    match m with
    | None => ret ∅
    | Some consented_vendors_map =>
        for_each consented_vendors_map
          (fun '(vendor_id, consented) (matching_vendors : gmap Z json) =>
             if consented : bool then
               vendor_gvl_data ← _get_vendor_gvl_data vendor_id;
               flag ← lift (py_get vendor_gvl_data gvl_flag_key (JBool false));
               if truthy flag then
                 name ← lift (py_get vendor_gvl_data "name" (JStr "unknown"));
                 ret (<[vendor_id := name]> matching_vendors)
               else ret matching_vendors
             else ret matching_vendors)
          (∅ : gmap Z json)
    end.

Definition get_consented_vendors_using_cookies :=
  _get_consented_vendors_by_gvl_flag "usesCookies".

Definition get_consented_vendors_using_non_cookie_access :=
  _get_consented_vendors_by_gvl_flag "usesNonCookieAccess".

(** ** The public interface as a whole *)

(** A call of a public query method, with its arguments. *)
Inductive query : Type :=
  | GetMetadata
  | GetConsentedVendors (include_details : bool)
  | GetCmpDetails
  | GetVendorsUsingLegitimateInterest
  | GetConsentedVendorsForPurposes (purpose_ids : list Z) (require_all : bool)
  | GetConsentedVendorsForSpecialPurposes (purpose_ids : list Z) (require_all : bool)
  | GetConsentedVendorsForFeatures (feature_ids : list Z) (require_all : bool)
  | GetConsentedVendorsForSpecialFeatures (feature_ids : list Z) (require_all : bool)
  | GetConsentedVendorsForFlexiblePurposes (purpose_ids : list Z) (require_all : bool)
  | GetVendorUrls (vendor_id : Z)
  | GetConsentedVendorsUsingCookies
  | GetConsentedVendorsUsingNonCookieAccess.

(** What a query returns: a dict with string keys, a list, a single
    value, or a dict keyed by vendor id. *)
Inductive answer : Type :=
  | ADict (d : dict)
  | AList (l : list json)
  | AValue (j : json)
  | AVendors (m : gmap Z json).

Definition call (q : query) : M answer :=
  match q with
  | GetMetadata => r ← get_metadata; ret (ADict r)
  | GetConsentedVendors b => r ← get_consented_vendors b; ret (AList r)
  | GetCmpDetails => r ← get_cmp_details; ret (AValue r)
  | GetVendorsUsingLegitimateInterest =>
      r ← get_vendors_using_legitimate_interest; ret (AVendors r)
  | GetConsentedVendorsForPurposes ids b =>
      r ← get_consented_vendors_for_purposes ids b; ret (AVendors r)
  | GetConsentedVendorsForSpecialPurposes ids b =>
      r ← get_consented_vendors_for_special_purposes ids b; ret (AVendors r)
  | GetConsentedVendorsForFeatures ids b =>
      r ← get_consented_vendors_for_features ids b; ret (AVendors r)
  | GetConsentedVendorsForSpecialFeatures ids b =>
      r ← get_consented_vendors_for_special_features ids b; ret (AVendors r)
  | GetConsentedVendorsForFlexiblePurposes ids b =>
      r ← get_consented_vendors_for_flexible_purposes ids b; ret (AVendors r)
  | GetVendorUrls v => r ← get_vendor_urls v; ret (ADict r)
  | GetConsentedVendorsUsingCookies =>
      r ← get_consented_vendors_using_cookies; ret (AVendors r)
  | GetConsentedVendorsUsingNonCookieAccess =>
      r ← get_consented_vendors_using_non_cookie_access; ret (AVendors r)
  end.

End TCFProcessor.

(** * Notions used in the statements *)

(** The entry of the GVL index under a vendor id, if there is one. *)
Definition gvl_entry (self : Processor) (v : Z) : option json :=
  dict_lookup (str_of_int v) (gvl_vendors_dict self).

(** A field of a JSON value that is a mapping. *)
Definition field_of (e : json) (k : string) : option json :=
  match e with
  | JObj o => dict_lookup k o
  | _ => None
  end.

(** A field of the GVL entry of a vendor: [None] when the entry or the
    field is missing. *)
Definition entry_field (self : Processor) (v : Z) (k : string) : option json :=
  gvl_entry self v ≫= fun e => field_of e k.

(** The entry of the vendor, when there is one, is a mapping. *)
Definition entry_is_mapping (self : Processor) (v : Z) : Prop :=
  forall e, gvl_entry self v = Some e -> is_dict e = true.

(** The fourteen keys of a vendor detail record. *)
Definition detail_fields : list string :=
  ["id"; "name"; "purposes"; "legIntPurposes"; "flexiblePurposes";
   "specialPurposes"; "features"; "specialFeatures"; "policyUrl";
   "cookieMaxAgeSeconds"; "usesCookies"; "cookieRefresh";
   "usesNonCookieAccess"; "deviceStorageDisclosureUrl"].

(** The default table of the vendor detail record. *)
Definition detail_defaults : list (string * json) :=
  [("purposes", JList []); ("legIntPurposes", JList []);
   ("flexiblePurposes", JList []); ("specialPurposes", JList []);
   ("features", JList []); ("specialFeatures", JList []);
   ("policyUrl", JStr ""); ("deviceStorageDisclosureUrl", JStr "");
   ("cookieMaxAgeSeconds", JNull);
   ("usesCookies", JBool false); ("cookieRefresh", JBool false);
   ("usesNonCookieAccess", JBool false)].

(** The three-way reading of the name of a detail record: the placeholder
    of an empty index, the placeholder of a missing entry, and otherwise
    the [name] field of the entry itself. *)
Definition name_three_way (self : Processor) (v : Z) (name : json) : Prop :=
  (gvl_vendors_dict self = [] -> name = JStr "unknown (GVL not loaded)") /\
  (gvl_vendors_dict self <> [] -> gvl_entry self v = None ->
   name = JStr "unknown (Not in GVL)") /\
  (forall e, gvl_entry self v = Some e -> field_of e "name" = Some name).

(** An instance as [__init__] leaves it, given what it holds. *)
Definition instance (gvl cmps : dict) (co : option ConsentObject)
    (err : option string) : Processor :=
  {| consent_string := "CQOK";
     gvl_filepath := "vendor-list.json";
     cmp_list_filepath := "cmp-list.json";
     gvl_data := Some (JObj [("vendors", JObj gvl)]);
     gvl_vendors_dict := gvl;
     cmp_list_data := Some (JObj [("cmps", JObj cmps)]);
     cmp_list_dict := cmps;
     consent_object := co;
     error_state := err |}.

(** A GVL index whose entry [7] has an [id] that is not its key and no
    [name], and whose entry [9] is an empty mapping. *)
Definition sparse_gvl : dict :=
  [("7", JObj [("id", JInt 70); ("policyUrl", JStr "https://seven.example/privacy")]);
   ("9", JObj [])].

(** The claim that the CMP resolver hands out whatever the registry holds
    under the string form of a non-zero CMP id. *)
Definition returns_registry_entry (self : Processor) : Prop :=
  forall co z e,
    consent_object self = Some co ->
    co_cmp_id co = Some (Some z) ->
    z <> 0 ->
    dict_lookup (str_of_int z) (cmp_list_dict self) = Some e ->
    get_cmp_details self = (Ok e, self).

(** A consent object with the given CMP id and consent map and nothing
    else. *)
Definition consent_of (cmp_id : option (option Z)) (consented : option (list (Z * bool))) :
    ConsentObject :=
  {| co_scalars := [];
     co_cmp_id := cmp_id;
     co_consented_vendors := consented;
     co_legitimate_interest_vendors := None |}.

(** A CMP list with an entry under ["0"], an entry under ["5"] that is an
    empty mapping, and a filled entry under ["300"]. *)
Definition sample_cmps : dict :=
  [("0", JObj [("id", JInt 0); ("name", JStr "Zero CMP")]);
   ("5", JObj []);
   ("300", JObj [("id", JInt 300); ("name", JStr "Example CMP"); ("isCommercial", JBool true)])].

(** The outcome of [set(vendor_gvl_data.get(key, []))] for a vendor: the
    elements of the set of declared ids, or the exception of a value that
    cannot be made a set. *)
Definition declared_ids_set (self : Processor) (key : string) (v : Z) : Res (list json) :=
  match py_get (default (JObj []) (gvl_entry self v)) key (JList []) with
  | Ok j => py_set j
  | Raise e => Raise e
  end.

(** The name a match record carries. *)
Definition reported_name (self : Processor) (v : Z) : json :=
  default (JStr "unknown") (entry_field self v "name").

(** The record of a vendor in the result of the matcher, if the vendor
    qualifies. *)
Definition match_record (self : Processor) (key : string) (required : gset Z)
    (require_all : bool) (v : Z) : option json :=
  match declared_ids_set self key v with
  | Ok declared =>
      let common := intersection declared required in
      if match common with
         | [] => false
         | _ => if require_all then set_equal common required else true
         end
      then Some (JObj [("name", reported_name self v);
                       ("matched_ids", JList (sorted common))])
      else None
  | Raise _ => None
  end.

(** The vendor declares the integer [z] under [key]: the value of its GVL
    entry under the key is a list that holds [z], or a boolean equal to
    it. *)
Definition declares (self : Processor) (key : string) (v : Z) (z : Z) : Prop :=
  exists l j,
    entry_field self v key = Some (JList l) /\
    In j l /\
    (j = JInt z \/ (j = JBool true /\ z = 1) \/ (j = JBool false /\ z = 0)).

(** The GVL and the consent map of the scenario of the specification:
    vendor 10 declares purposes 1 and 3, vendor 30 declares purpose 2;
    vendors 10 and 30 have consent, vendor 20 has not. *)
Definition scenario_gvl : dict :=
  [("10", JObj [("id", JInt 10); ("name", JStr "Ten"); ("purposes", JList [JInt 1; JInt 3])]);
   ("30", JObj [("id", JInt 30); ("name", JStr "Thirty"); ("purposes", JList [JInt 2])])].

Definition scenario_consent : list (Z * bool) := [(10, true); (20, false); (30, true)].

Definition scenario : Processor :=
  instance scenario_gvl [] (Some (consent_of (Some (Some 300)) (Some scenario_consent))) None.

(** A load failure of the GVL source: the file is absent or is not JSON
    ([read_json] raises), the document is not a mapping, or it has no
    ['vendors'] collection that is a mapping. *)
Definition gvl_load_failure (r : Res json) : bool :=
  match r with
  | Raise _ => true
  | Ok (JObj o) =>
      match dict_lookup "vendors" o with
      | Some (JObj _) => false
      | _ => true
      end
  | Ok _ => true
  end.

(** A load failure of the CMP list source: the file is absent or is not
    JSON, the document is not a mapping, or its ['cmps'] collection is not
    one.  A document without ['cmps'] is itself the collection. *)
Definition cmp_load_failure (r : Res json) : bool :=
  match r with
  | Raise _ => true
  | Ok (JObj o) =>
      match dict_lookup "cmps" o with
      | Some (JObj _) => false
      | Some _ => true
      | None => false
      end
  | Ok _ => true
  end.

(** The query is the lookup of the URLs of a vendor. *)
Definition is_vendor_urls (q : query) : bool :=
  match q with
  | GetVendorUrls _ => true
  | _ => false
  end.

(** What a query that found the error state set returns: the error
    message under ['error'] for the metadata and the CMP details, the
    empty list or the empty mapping for the vendor queries. *)
Definition empty_answer (msg : string) (q : query) : answer :=
  match q with
  | GetMetadata => ADict [("error", JStr msg)]
  | GetConsentedVendors _ => AList []
  | GetCmpDetails => AValue (JObj [("error", JStr msg)])
  | GetVendorUrls _ =>
      ADict [("policyUrl", JStr ""); ("deviceStorageDisclosureUrl", JStr "");
             ("error", JStr "GVL not loaded or empty")]
  | _ => AVendors ∅
  end.

(** The empty or placeholder shape each query documents for its failure:
    an ['error'] entry, an empty list, an empty mapping, or empty URLs
    next to an ['error'] entry. *)
Definition documented_empty (q : query) (a : answer) : Prop :=
  match q, a with
  | GetMetadata, ADict d => is_Some (dict_lookup "error" d)
  | GetConsentedVendors _, AList l => l = []
  | GetCmpDetails, AValue j => is_Some (field_of j "error")
  | GetVendorUrls _, ADict d =>
      dict_lookup "policyUrl" d = Some (JStr "") /\
      dict_lookup "deviceStorageDisclosureUrl" d = Some (JStr "") /\
      is_Some (dict_lookup "error" d)
  | GetMetadata, _ | GetConsentedVendors _, _ | GetCmpDetails, _ | GetVendorUrls _, _ => False
  | _, AVendors m => m = ∅
  | _, _ => False
  end.

(** A file system with a GVL file and no CMP list file. *)
Definition gvl_only (path : string) : Res json :=
  if String.eqb path "vendor-list.json"
  then Ok (JObj [("vendors", JObj sparse_gvl)])
  else Raise (Exn FileNotFoundError "No such file or directory").

(** A file system without either file. *)
Definition no_files (path : string) : Res json :=
  Raise (Exn FileNotFoundError "No such file or directory").

(** A decoder that rejects every string. *)
Definition reject_all (s : string) : Res ConsentObject :=
  Raise (Exn ValueError "invalid base64").

(** A decoder that accepts every string and finds consent for vendor 7. *)
Definition accept_all (s : string) : Res ConsentObject :=
  Ok (consent_of (Some (Some 300)) (Some [(7, true)])).

(** Renderings of a [datetime] and of [bytes] for the examples. *)
Definition iso_example (d : datetime) : Res string := Ok "2024-01-01T00:00:00+00:00".
Definition str_example (d : datetime) : string := "2024-01-01 00:00:00".
Definition utf8_example (b : list Byte.byte) : Res string := Ok "EN".

(** The error state the consent string and the decoder lead to: the two
    fatal conditions, or none. *)
Definition fatal_error (decode : string -> Res ConsentObject) (cs : string) : option string :=
  if String.eqb cs "" then Some "Consent string is empty."
  else match decode cs with
       | Ok _ => None
       | Raise e => Some ("Failed to decode TCF string: " +:+ exn_msg e)
       end.

(** The claim that a query, on an instance whose error state is set,
    returns its documented empty shape. *)
Definition error_checked_first
    (isoformat_utc : datetime -> Res string) (datetime_str : datetime -> string)
    (decode_utf8_replace : list Byte.byte -> Res string)
    (q : query) (self : Processor) : Prop :=
  str_truthy (error_state self) = true ->
  exists a,
    fst (call isoformat_utc datetime_str decode_utf8_replace q self) = Ok a /\
    documented_empty q a.

(** The vendor ids of a consent map whose value is true, in the order of
    the map. *)
Definition consented_ids (m : list (Z * bool)) : list Z :=
  map fst (filter (fun kv => snd kv = true) m).

(** An instance on which the consent queries run: it has a consent
    object and no error. *)
Definition available (self : Processor) (co : ConsentObject) : Prop :=
  consent_object self = Some co /\ str_truthy (error_state self) = false.

(** The exception of a method call on a value that has no such method. *)
Definition is_attribute_error (e : exn) : Prop := exn_kind e = AttributeError.

(** A GVL index in which the entry of vendor 7 is a list, not a mapping. *)
Definition broken_gvl : dict :=
  [("7", JList [JInt 1]); ("8", JObj [("name", JStr "Eight"); ("usesCookies", JBool true)])].

(** Every member of a family of bodies is read-only. *)
Definition readonly_family {A B} (f : A -> Processor -> Res B * Processor) : Prop :=
  forall x self, snd (f x self) = self.

(** The keys of the metadata mapping, in order, each with the attribute
    of the consent object it is read from. *)
Definition metadata_attrs : list (string * string) :=
  [("tcf_version", "version"); ("created", "created");
   ("last_updated", "last_updated"); ("cmp_id", "cmp_id");
   ("cmp_version", "cmp_version"); ("consent_screen", "consent_screen");
   ("vendor_list_version", "vendor_list_version");
   ("tcf_policy_version", "tcf_policy_version");
   ("consent_language", "consent_language"); ("publisher_cc", "publisher_cc");
   ("is_service_specific", "is_service_specific");
   ("purpose_one_treatment", "purpose_one_treatment");
   ("use_non_standard_stacks", "use_non_standard_stacks")].

(** An attribute value that is neither a [datetime] nor [bytes], as the
    JSON value it is. *)
Definition plain_json (a : attrval) : option json :=
  match a with
  | ANone => Some JNull
  | AInt z => Some (JInt z)
  | ABool b => Some (JBool b)
  | AStr s => Some (JStr s)
  | ABytes _ | ADatetime _ => None
  end.

(** The only exceptions of the rendering of a [datetime] that
    [get_metadata] catches are [ValueError], [OSError] and their
    subclasses: the attributes of the consent object raise no other. *)
Definition datetimes_render (isoformat_utc : datetime -> Res string)
    (co : ConsentObject) : Prop :=
  forall name d e,
    getattr_or_none co name = ADatetime d ->
    isoformat_utc d = Raise e ->
    exn_is ValueError e || exn_is OSError e = true.

(** A consent object with a version, a creation time, a language given
    as bytes and a CMP id. *)
Definition sample_consent : ConsentObject :=
  {| co_scalars := [("version", AInt 2);
                    ("created", ADatetime (Datetime 1704067200000000 (Some 0)));
                    ("consent_language", ABytes [Byte.x45; Byte.x4e]);
                    ("is_service_specific", ABool true)];
     co_cmp_id := Some (Some 300);
     co_consented_vendors := Some [(7, true)];
     co_legitimate_interest_vendors := Some [] |}.

(** A file system with both files: the GVL nested under ['vendors'], and
    the CMP list as a bare mapping. *)
Definition both_files (path : string) : Res json :=
  if String.eqb path "vendor-list.json"
  then Ok (JObj [("gvlSpecificationVersion", JInt 3); ("vendors", JObj sparse_gvl)])
  else if String.eqb path "cmp-list.json"
  then Ok (JObj sample_cmps)
  else Raise (Exn FileNotFoundError "No such file or directory").

(** * Properties *)

(** ** Running method bodies *)

Lemma run_ret {A} (a : A) self : ret a self = (Ok a, self).
Proof. reflexivity. Qed.

Lemma run_attr {A} (f : Processor -> A) self : attr f self = (Ok (f self), self).
Proof. reflexivity. Qed.

Lemma run_lift {A} (r : Res A) self : lift r self = (r, self).
Proof. reflexivity. Qed.

Lemma run_bind_ok {A B} (m : M A) (k : A -> M B) self a self' :
  m self = (Ok a, self') -> bind m k self = k a self'.
Proof. intros H. unfold bind. now rewrite H. Qed.

Lemma run_bind_raise {A B} (m : M A) (k : A -> M B) self e self' :
  m self = (Raise e, self') -> bind m k self = (Raise e, self').
Proof. intros H. unfold bind. now rewrite H. Qed.

(** ** Methods that only read [self] *)

(** A body is read-only when the instance it leaves is the one it got. *)
Definition readonly {A} (m : M A) : Prop := forall self, snd (m self) = self.

Lemma readonly_ret {A} (a : A) : readonly (ret a).
Proof. now intros self. Qed.

Lemma readonly_raise {A} (e : exn) : readonly (@raise A e).
Proof. now intros self. Qed.

Lemma readonly_attr {A} (f : Processor -> A) : readonly (attr f).
Proof. now intros self. Qed.

Lemma readonly_lift {A} (r : Res A) : readonly (lift r).
Proof. now intros self. Qed.

Lemma readonly_bind {A B} (m : M A) (k : A -> M B) :
  readonly m -> (forall a, readonly (k a)) -> readonly (bind m k).
Proof.
  intros Hm Hk self. unfold bind.
  specialize (Hm self). destruct (m self) as [[a|e] self']; simpl in *; subst.
  - apply Hk.
  - reflexivity.
Qed.

Lemma readonly_try_except {A} (m : M A) (h : exn -> M A) :
  readonly m -> (forall e, readonly (h e)) -> readonly (try_except m h).
Proof.
  intros Hm Hh self. unfold try_except.
  specialize (Hm self). destruct (m self) as [[a|e] self']; simpl in *; subst.
  - reflexivity.
  - apply Hh.
Qed.

Lemma readonly_for_each {A S} (l : list A) (body : A -> S -> M S) :
  (forall x acc, readonly (body x acc)) -> forall acc, readonly (for_each l body acc).
Proof.
  intros Hbody. induction l as [|x l IH]; intros acc; simpl.
  - apply readonly_ret.
  - apply readonly_bind; [apply Hbody | exact IH].
Qed.

Lemma readonly_comprehension {A B} (f : A -> M B) (l : list A) :
  (forall x, readonly (f x)) -> readonly (comprehension f l).
Proof.
  intros Hf. induction l as [|x l IH]; simpl.
  - apply readonly_ret.
  - apply readonly_bind; [apply Hf | intros y].
    apply readonly_bind; [exact IH | intros ys; apply readonly_ret].
Qed.

(** The result of a read-only body determines the whole run. *)
Lemma readonly_run {A} (m : M A) self : readonly m -> m self = (fst (m self), self).
Proof. intros H. specialize (H self). destruct (m self); simpl in *; now subst. Qed.

Create HintDb readonly discriminated.
#[global] Hint Resolve readonly_ret readonly_raise readonly_attr readonly_lift : readonly.

(** Breaks a body down along its binds, loops and case distinctions. *)
Ltac readonly_step :=
  match goal with
  | |- readonly (bind _ _) => apply readonly_bind; [| intros ?]
  | |- readonly (try_except _ _) => apply readonly_try_except; [| intros ?]
  | |- readonly (for_each _ _ _) => apply readonly_for_each; intros ? ?
  | |- readonly (comprehension _ _) => apply readonly_comprehension; intros ?
  | |- readonly (if ?b then _ else _) => destruct b
  | |- readonly (match ?x with _ => _ end) => destruct x
  | |- readonly (let '(_, _) := ?x in _) => destruct x
  | |- readonly ((let '(_, _) := ?x in _) _) => destruct x
  | |- readonly _ => solve [auto with readonly]
  end.

Ltac readonly_tac := repeat readonly_step.

Lemma readonly__get_vendor_gvl_data v : readonly (_get_vendor_gvl_data v).
Proof. unfold _get_vendor_gvl_data. readonly_tac. Qed.

Lemma readonly__get_vendor_details v : readonly (_get_vendor_details v).
Proof.
  unfold _get_vendor_details.
  apply readonly_bind; [apply readonly__get_vendor_gvl_data | intros ?].
  readonly_tac.
Qed.

#[global] Hint Resolve readonly__get_vendor_gvl_data readonly__get_vendor_details : readonly.

Lemma readonly_unavailable : readonly unavailable.
Proof. unfold unavailable. readonly_tac. Qed.

Lemma readonly_vendor_map f : readonly (vendor_map f).
Proof. unfold vendor_map. readonly_tac. Qed.

#[global] Hint Resolve readonly_unavailable readonly_vendor_map : readonly.

(** ** The vendor detail resolver *)

Lemma run__get_vendor_gvl_data v self :
  _get_vendor_gvl_data v self = (Ok (default (JObj []) (gvl_entry self v)), self).
Proof.
  unfold _get_vendor_gvl_data, gvl_entry, bind, attr, ret.
  destruct (gvl_vendors_dict self); reflexivity.
Qed.

Lemma gvl_entry_empty self v : gvl_vendors_dict self = [] -> gvl_entry self v = None.
Proof. unfold gvl_entry. now intros ->. Qed.

(** The record built from an entry that is a mapping. *)
Lemma run__get_vendor_details v self o :
  default (JObj []) (gvl_entry self v) = JObj o ->
  exists name,
    _get_vendor_details v self =
      (Ok [("id", default (JInt v) (dict_lookup "id" o));
           ("name", name);
           ("purposes", default (JList []) (dict_lookup "purposes" o));
           ("legIntPurposes", default (JList []) (dict_lookup "legIntPurposes" o));
           ("flexiblePurposes", default (JList []) (dict_lookup "flexiblePurposes" o));
           ("specialPurposes", default (JList []) (dict_lookup "specialPurposes" o));
           ("features", default (JList []) (dict_lookup "features" o));
           ("specialFeatures", default (JList []) (dict_lookup "specialFeatures" o));
           ("policyUrl", default (JStr "") (dict_lookup "policyUrl" o));
           ("cookieMaxAgeSeconds", default JNull (dict_lookup "cookieMaxAgeSeconds" o));
           ("usesCookies", default (JBool false) (dict_lookup "usesCookies" o));
           ("cookieRefresh", default (JBool false) (dict_lookup "cookieRefresh" o));
           ("usesNonCookieAccess",
            default (JBool false) (dict_lookup "usesNonCookieAccess" o));
           ("deviceStorageDisclosureUrl",
            default (JStr "") (dict_lookup "deviceStorageDisclosureUrl" o))], self) /\
    name = (if negb (dict_truthy (gvl_vendors_dict self))
            then JStr "unknown (GVL not loaded)"
            else if negb (dict_truthy o) then JStr "unknown (Not in GVL)"
            else default (JStr "unknown") (dict_lookup "name" o)).
Proof.
  intros Ho. unfold _get_vendor_details.
  rewrite (run_bind_ok _ _ _ _ _ (run__get_vendor_gvl_data v self)), Ho.
  eexists. split; [| reflexivity].
  unfold bind, attr, lift, ret, py_get, truthy.
  destruct (gvl_vendors_dict self); [reflexivity |].
  destruct o; reflexivity.
Qed.

(** The entry a mapping hypothesis leaves: the mapping itself, or the
    empty mapping of a missing entry. *)
Lemma entry_is_mapping_inv self v :
  entry_is_mapping self v ->
  exists o, default (JObj []) (gvl_entry self v) = JObj o /\
            forall k, entry_field self v k = dict_lookup k o.
Proof.
  unfold entry_is_mapping, entry_field. intros H.
  destruct (gvl_entry self v) as [e|].
  - specialize (H e eq_refl). destruct e; try discriminate. now exists o.
  - now exists [].
Qed.

(** C3. The vendor detail resolver is total on every state of the GVL
    index in which the entry of the vendor, if present, is a mapping (the
    index may be empty, the entry absent, and any field of the entry
    missing): it returns, without raising and without touching the
    instance, a record with exactly the fourteen documented keys, and
    every field of the default table holds the value of the entry when
    the entry has the field and the default of the table otherwise. *)
Theorem vendor_details_total self v :
  entry_is_mapping self v ->
  exists r,
    _get_vendor_details v self = (Ok r, self) /\
    map fst r = detail_fields /\
    forall k dflt, In (k, dflt) detail_defaults ->
      dict_lookup k r = Some (default dflt (entry_field self v k)).
Proof.
  intros Hmap.
  destruct (entry_is_mapping_inv _ _ Hmap) as (o & Ho & Hfield).
  destruct (run__get_vendor_details v self o Ho) as (name & Hrun & _).
  eexists. split; [exact Hrun |]. split; [reflexivity |].
  intros k dflt Hin. rewrite Hfield.
  simpl in Hin.
  repeat (destruct Hin as [Hin | Hin]; [injection Hin as <- <-; reflexivity |]).
  contradiction.
Qed.

Lemma vendor_details_total_witness :
  exists r,
    _get_vendor_details 7 (instance sparse_gvl [] None None)
      = (Ok r, instance sparse_gvl [] None None) /\
    map fst r = detail_fields /\
    forall k dflt, In (k, dflt) detail_defaults ->
      dict_lookup k r
        = Some (default dflt (entry_field (instance sparse_gvl [] None None) 7 k)).
Proof.
  apply (vendor_details_total (instance sparse_gvl [] None None) 7).
  intros e He. vm_compute in He. injection He as <-. reflexivity.
Defined.

(** C5, as amended.  The name of the detail record is the "GVL not
    loaded" placeholder when the index is empty; the "Not in GVL"
    placeholder when the index is not empty and the vendor has no entry
    or an entry that is an empty mapping; the [name] field of the entry
    when the entry has one; and the plain ["unknown"] when a non-empty
    entry has no [name] field. *)
Theorem vendor_details_name self v :
  entry_is_mapping self v ->
  exists r name,
    _get_vendor_details v self = (Ok r, self) /\
    dict_lookup "name" r = Some name /\
    (gvl_vendors_dict self = [] -> name = JStr "unknown (GVL not loaded)") /\
    (gvl_vendors_dict self <> [] -> gvl_entry self v = None ->
     name = JStr "unknown (Not in GVL)") /\
    (gvl_entry self v = Some (JObj []) -> name = JStr "unknown (Not in GVL)") /\
    (forall n, entry_field self v "name" = Some n -> name = n) /\
    (forall o, gvl_entry self v = Some (JObj o) -> o <> [] ->
       dict_lookup "name" o = None -> name = JStr "unknown").
Proof.
  intros Hmap.
  destruct (entry_is_mapping_inv _ _ Hmap) as (o & Ho & Hfield).
  destruct (run__get_vendor_details v self o Ho) as (name & Hrun & Hname).
  eexists _, _. split; [exact Hrun |]. split; [reflexivity |].
  assert (Hempty : gvl_vendors_dict self = [] -> o = []).
  { intros Hd. rewrite (gvl_entry_empty _ _ Hd) in Ho. simpl in Ho. congruence. }
  repeat split.
  - intros Hd. now rewrite Hname, Hd.
  - intros Hd Hnone. rewrite Hnone in Ho. simpl in Ho. injection Ho as <-.
    rewrite Hname. destruct (gvl_vendors_dict self); [contradiction | reflexivity].
  - intros Hent. rewrite Hent in Ho. simpl in Ho. injection Ho as <-.
    rewrite Hname. destruct (gvl_vendors_dict self) eqn:Hd; [| reflexivity].
    rewrite (gvl_entry_empty _ _ Hd) in Hent. discriminate.
  - intros n Hn. rewrite Hfield in Hn. rewrite Hname, Hn.
    destruct (gvl_vendors_dict self) eqn:Hd.
    + rewrite (Hempty eq_refl) in Hn. discriminate.
    + destruct o; [discriminate | reflexivity].
  - intros o' Hent Hne Hn. rewrite Hent in Ho. simpl in Ho. injection Ho as <-.
    rewrite Hname, Hn. destruct (gvl_vendors_dict self) eqn:Hd.
    + rewrite (gvl_entry_empty _ _ Hd) in Hent. discriminate.
    + destruct o'; [contradiction | reflexivity].
Qed.

Lemma vendor_details_name_witness :
  exists r name,
    _get_vendor_details 9 (instance sparse_gvl [] None None)
      = (Ok r, instance sparse_gvl [] None None) /\
    dict_lookup "name" r = Some name /\
    name = JStr "unknown (Not in GVL)".
Proof.
  destruct (vendor_details_name (instance sparse_gvl [] None None) 9)
    as (r & name & Hrun & Hname & _ & _ & Hempty & _).
  - intros e He. vm_compute in He. injection He as <-. reflexivity.
  - exists r, name. repeat split; [exact Hrun | exact Hname |].
    apply Hempty. reflexivity.
Defined.

(** C5, as stated, fails: entry [7] of [sparse_gvl] is present and has no
    [name] field; the resolver answers ["unknown"], which is none of the
    three values of the claim. *)
Lemma vendor_details_name_counterexample :
  exists r name,
    _get_vendor_details 7 (instance sparse_gvl [] None None)
      = (Ok r, instance sparse_gvl [] None None) /\
    dict_lookup "name" r = Some name /\
    name = JStr "unknown" /\
    ~ name_three_way (instance sparse_gvl [] None None) 7 name.
Proof.
  eexists _, _. split; [vm_compute; reflexivity |].
  split; [reflexivity |]. split; [reflexivity |].
  intros (_ & _ & H).
  specialize (H _ eq_refl). vm_compute in H. discriminate.
Qed.

(** C10. The [id] of the detail record is the [id] field of the entry of
    the vendor when the entry exists and has one, and the queried vendor
    id otherwise; so the [id] reported can differ from the id asked for. *)
Theorem vendor_details_id :
  (forall self v,
     entry_is_mapping self v ->
     exists r id,
       _get_vendor_details v self = (Ok r, self) /\
       dict_lookup "id" r = Some id /\
       (forall i, entry_field self v "id" = Some i -> id = i) /\
       (entry_field self v "id" = None -> id = JInt v)) /\
  (exists self v r,
     _get_vendor_details v self = (Ok r, self) /\
     dict_lookup "id" r <> Some (JInt v)).
Proof.
  split.
  - intros self v Hmap.
    destruct (entry_is_mapping_inv _ _ Hmap) as (o & Ho & Hfield).
    destruct (run__get_vendor_details v self o Ho) as (name & Hrun & _).
    eexists _, _. split; [exact Hrun |]. split; [reflexivity |].
    rewrite Hfield. split.
    + intros i ->. reflexivity.
    + intros ->. reflexivity.
  - exists (instance sparse_gvl [] None None), 7. eexists.
    split; [vm_compute; reflexivity |]. discriminate.
Qed.

Lemma vendor_details_id_witness :
  exists r,
    _get_vendor_details 7 (instance sparse_gvl [] None None)
      = (Ok r, instance sparse_gvl [] None None) /\
    dict_lookup "id" r = Some (JInt 70).
Proof.
  destruct (proj1 vendor_details_id (instance sparse_gvl [] None None) 7)
    as (r & id & Hrun & Hid & Hsome & _).
  - intros e He. vm_compute in He. injection He as <-. reflexivity.
  - exists r. split; [exact Hrun |]. rewrite Hid. f_equal.
    apply Hsome. reflexivity.
Defined.

(** ** The CMP resolver *)

(** C6. With a consent object whose [cmp_id] is [0] or [None], the CMP
    resolver returns the placeholder [{'id': cmp_id, 'name': 'unknown (CMP
    ID not set)'}] whatever the CMP list index holds: the answer is the
    same for every index put in its place, an index with an entry under
    ["0"] included. *)
Theorem cmp_id_not_set self co cmp_id registry :
  consent_object self = Some co ->
  co_cmp_id co = Some cmp_id ->
  cmp_id = None \/ cmp_id = Some 0 ->
  get_cmp_details (set_cmp_list_dict registry self) =
    (Ok (JObj [("id", json_of_cmp_id cmp_id);
               ("name", JStr "unknown (CMP ID not set)")]),
     set_cmp_list_dict registry self).
Proof.
  intros Hco Hid Hunset.
  unfold get_cmp_details, bind, attr, ret. simpl. rewrite Hco, Hid.
  destruct Hunset as [-> | ->]; reflexivity.
Qed.

Lemma cmp_id_not_set_witness :
  dict_lookup "0" sample_cmps <> None /\
  get_cmp_details (instance [] sample_cmps (Some (consent_of (Some (Some 0)) None)) None) =
    (Ok (JObj [("id", JInt 0); ("name", JStr "unknown (CMP ID not set)")]),
     instance [] sample_cmps (Some (consent_of (Some (Some 0)) None)) None).
Proof.
  split; [discriminate |].
  apply (cmp_id_not_set
           (instance [] sample_cmps (Some (consent_of (Some (Some 0)) None)) None)
           (consent_of (Some (Some 0)) None) (Some 0) sample_cmps).
  - reflexivity.
  - reflexivity.
  - right. reflexivity.
Defined.

(** C8, as amended.  With a consent object whose [cmp_id] is a non-zero
    integer and a CMP list index that holds, under the string form of that
    integer, an entry that is true in Python's sense (a non-empty mapping,
    for one), the CMP resolver returns that entry itself, unchanged. *)
Theorem cmp_entry_verbatim self co z e :
  consent_object self = Some co ->
  co_cmp_id co = Some (Some z) ->
  z <> 0 ->
  dict_lookup (str_of_int z) (cmp_list_dict self) = Some e ->
  truthy e = true ->
  get_cmp_details self = (Ok e, self).
Proof.
  intros Hco Hid Hz He Ht.
  unfold get_cmp_details, bind, attr, ret. rewrite Hco, Hid. simpl.
  destruct (Z.eqb_spec z 0) as [| _]; [contradiction |]. simpl.
  destruct (cmp_list_dict self) as [| kv d] eqn:Hd; [discriminate |].
  simpl negb. cbv iota. rewrite He. simpl. now rewrite Ht.
Qed.

Lemma cmp_entry_verbatim_witness :
  get_cmp_details (instance [] sample_cmps (Some (consent_of (Some (Some 300)) None)) None) =
    (Ok (JObj [("id", JInt 300); ("name", JStr "Example CMP"); ("isCommercial", JBool true)]),
     instance [] sample_cmps (Some (consent_of (Some (Some 300)) None)) None).
Proof.
  apply (cmp_entry_verbatim _ (consent_of (Some (Some 300)) None) 300).
  - reflexivity.
  - reflexivity.
  - discriminate.
  - vm_compute. reflexivity.
  - reflexivity.
Defined.

(** C8, as stated, fails: [sample_cmps] holds an entry under ["5"], the
    empty mapping, and for CMP id [5] the resolver answers with the "not
    found" placeholder instead of that entry. *)
Lemma cmp_entry_verbatim_counterexample :
  get_cmp_details (instance [] sample_cmps (Some (consent_of (Some (Some 5)) None)) None) =
    (Ok (JObj [("id", JInt 5);
               ("name", JStr "unknown (Not found in CMP list)");
               ("error", JStr "CMP ID 5 not found in the loaded CMP list data.")]),
     instance [] sample_cmps (Some (consent_of (Some (Some 5)) None)) None) /\
  ~ returns_registry_entry
      (instance [] sample_cmps (Some (consent_of (Some (Some 5)) None)) None).
Proof.
  split; [vm_compute; reflexivity |].
  intros H.
  specialize (H (consent_of (Some (Some 5)) None) 5 (JObj []) eq_refl eq_refl).
  assert (Hrun := H ltac:(discriminate) ltac:(vm_compute; reflexivity)).
  vm_compute in Hrun. discriminate.
Qed.

(** ** The matcher *)

(** *** Sets of identifiers *)

Lemma py_eq_int_value a b z :
  int_value a = Some z -> (py_eq a b = true <-> int_value b = Some z).
Proof.
  intros Ha. unfold py_eq.
  destruct a; try discriminate; simpl in Ha; injection Ha as <-;
    destruct b; simpl; split; intros H; try discriminate;
    try (apply Z.eqb_eq in H; now f_equal);
    try (injection H as <-; apply Z.eqb_refl).
Qed.

Lemma set_contains_spec s z :
  set_contains s z = true <-> exists d, d ∈ s /\ int_value d = Some z.
Proof.
  unfold set_contains. rewrite existsb_exists. split.
  - intros (d & Hin & Heq). exists d. split; [now apply list_elem_of_In |].
    now apply (py_eq_int_value (JInt z) d z).
  - intros (d & Hin & Hd). exists d. split; [now apply list_elem_of_In |].
    now apply (py_eq_int_value (JInt z) d z).
Qed.

Lemma in_int_set_spec (r : gset Z) j :
  in_int_set r j = true <-> exists z, int_value j = Some z /\ z ∈ r.
Proof.
  unfold in_int_set. destruct (int_value j) as [z |]; split.
  - intros H. exists z. split; [reflexivity |]. now apply bool_decide_eq_true in H.
  - intros (z' & Hz & Hin). injection Hz as <-. now apply bool_decide_eq_true.
  - discriminate.
  - intros (z' & Hz & _). discriminate.
Qed.

(** The set built from a list: its elements are elements of the list, it
    has an element for every integer of the list, and no two of its
    elements are equal integers. *)
Lemma set_update_spec l : forall s,
  (forall x, x ∈ set_update s l -> x ∈ s \/ x ∈ l) /\
  (forall x z, int_value x = Some z -> x ∈ s \/ x ∈ l ->
     exists d, d ∈ set_update s l /\ int_value d = Some z) /\
  (NoDup (omap int_value s) -> NoDup (omap int_value (set_update s l))).
Proof.
  induction l as [| x0 l IH]; intros s; simpl.
  - repeat split.
    + intros x Hx. now left.
    + intros x z Hz [Hx | Hx]; [eauto | inversion Hx].
    + auto.
  - destruct (existsb (py_eq x0) s) eqn:Hseen.
    + destruct (IH s) as (IH1 & IH2 & IH3). repeat split.
      * intros x Hx. destruct (IH1 x Hx); [now left | right; now right].
      * intros x z Hz [Hx | Hx]; [apply (IH2 x z Hz); now left |].
        apply elem_of_cons in Hx as [-> | Hx]; [| apply (IH2 x z Hz); now right].
        apply existsb_exists in Hseen as (d & Hd & Heq).
        apply (py_eq_int_value _ _ _ Hz) in Heq.
        apply (IH2 d z Heq). left. now apply list_elem_of_In.
      * exact IH3.
    + destruct (IH (s ++ [x0])%list) as (IH1 & IH2 & IH3). repeat split.
      * intros x Hx. destruct (IH1 x Hx) as [Hin | Hin]; [| right; now right].
        apply elem_of_app in Hin as [Hin | Hin]; [now left |].
        apply list_elem_of_singleton in Hin as ->. right. now left.
      * intros x z Hz [Hx | Hx].
        -- apply (IH2 x z Hz). left. apply elem_of_app. now left.
        -- apply elem_of_cons in Hx as [-> | Hx].
           ++ apply (IH2 x0 z Hz). left. apply elem_of_app. right. now left.
           ++ apply (IH2 x z Hz). now right.
      * intros Hnd. apply IH3. rewrite omap_app. apply NoDup_app.
        split; [exact Hnd |]. split.
        -- intros z Hz Hz0. simpl in Hz0.
           destruct (int_value x0) as [z0 |] eqn:Hx0; [| inversion Hz0].
           apply list_elem_of_singleton in Hz0 as ->.
           apply list_elem_of_omap in Hz as (d & Hd & Hdz).
           assert (Hcontra : existsb (py_eq x0) s = true).
           { apply existsb_exists. exists d. split; [now apply list_elem_of_In |].
             now apply (py_eq_int_value x0 d z0). }
           congruence.
        -- simpl. destruct (int_value x0); [apply NoDup_singleton | constructor].
Qed.

(** The elements of the intersection: integers that are required and
    declared, each once, given by the required integer or by the declared
    value equal to it. *)
Lemma elem_of_intersection_inv declared (required : gset Z) j :
  j ∈ intersection declared required ->
  exists z,
    int_value j = Some z /\ z ∈ required /\
    (exists d, d ∈ declared /\ int_value d = Some z) /\
    (j = JInt z \/ j ∈ declared).
Proof.
  unfold intersection. destruct (length declared <? size required)%nat.
  - intros Hj. apply list_elem_of_filter in Hj as [Hr Hd].
    apply Is_true_true, in_int_set_spec in Hr as (z & Hz & Hr).
    exists z. repeat split; eauto.
  - intros Hj. apply list_elem_of_In, in_map_iff in Hj as (z & <- & Hz).
    apply list_elem_of_In, list_elem_of_filter in Hz as [Hd Hr].
    apply Is_true_true, set_contains_spec in Hd.
    exists z. repeat split; auto. now apply elem_of_elements in Hr.
Qed.

Lemma elem_of_intersection_intro declared (required : gset Z) z :
  z ∈ required ->
  (exists d, d ∈ declared /\ int_value d = Some z) ->
  exists j, j ∈ intersection declared required /\ int_value j = Some z.
Proof.
  intros Hr (d & Hd & Hdz). unfold intersection.
  destruct (length declared <? size required)%nat.
  - exists d. split; [| exact Hdz]. apply list_elem_of_filter. split; [| exact Hd].
    apply Is_true_true, in_int_set_spec. eauto.
  - exists (JInt z). split; [| reflexivity].
    apply list_elem_of_In, in_map_iff. exists z. split; [reflexivity |].
    apply list_elem_of_In, list_elem_of_filter. split.
    + apply Is_true_true, set_contains_spec. eauto.
    + now apply elem_of_elements.
Qed.

Lemma int_of_int_value j z : int_value j = Some z -> int_of j = z.
Proof. unfold int_of. now intros ->. Qed.

Lemma omap_int_value_all (l : list json) :
  (forall j, j ∈ l -> is_Some (int_value j)) -> omap int_value l = int_of <$> l.
Proof.
  induction l as [| x l IH]; intros Hall; [reflexivity |]. simpl.
  destruct (Hall x ltac:(left)) as [z Hz]. rewrite Hz, (int_of_int_value _ _ Hz).
  simpl. f_equal. apply IH. intros j Hj. apply Hall. now right.
Qed.

Lemma omap_sublist {A B} (f : A -> option B) (l1 l2 : list A) :
  sublist l1 l2 -> sublist (omap f l1) (omap f l2).
Proof.
  induction 1 as [| x l1 l2 _ IH | x l1 l2 _ IH]; simpl.
  - constructor.
  - destruct (f x); [now constructor | exact IH].
  - destruct (f x); [now constructor | exact IH].
Qed.

Lemma omap_int_value_JInt (l : list Z) : omap int_value (map JInt l) = l.
Proof. induction l as [| z l IH]; [reflexivity |]. simpl. f_equal. exact IH. Qed.

Lemma intersection_NoDup declared (required : gset Z) :
  NoDup (omap int_value declared) ->
  NoDup (int_of <$> intersection declared required).
Proof.
  intros Hnd.
  rewrite <- omap_int_value_all.
  2:{ intros j Hj. apply elem_of_intersection_inv in Hj as (z & Hz & _). eauto. }
  unfold intersection. destruct (length declared <? size required)%nat.
  - eapply sublist_NoDup; [exact Hnd | apply omap_sublist, sublist_filter].
  - rewrite omap_int_value_JInt.
    apply NoDup_filter, NoDup_elements.
Qed.

(** The sorted list: the same elements, in strictly ascending order of
    their integers when no two are equal. *)
Lemma sorted_Permutation (s : list json) : sorted s ≡ₚ s.
Proof. unfold sorted. apply merge_sort_Permutation. Qed.

Lemma sorted_Sorted (s : list json) : Sorted Z.le (int_of <$> sorted s).
Proof.
  unfold sorted. apply Sorted_fmap with (R1 := json_le).
  - auto.
  - apply Sorted_merge_sort. intros a b. apply Z.le_ge_cases.
Qed.

Lemma elem_of_sorted (s : list json) j : j ∈ sorted s <-> j ∈ s.
Proof. now rewrite sorted_Permutation. Qed.

Lemma sorted_nil (s : list json) : sorted s = [] <-> s = [].
Proof.
  split; intros H.
  - apply Permutation_nil_r. rewrite <- H. symmetry. apply sorted_Permutation.
  - subst s. reflexivity.
Qed.

Lemma run_unavailable_any self :
  unavailable self =
    (Ok (negb (bool_decide (is_Some (consent_object self)))
         || str_truthy (error_state self)), self).
Proof. reflexivity. Qed.

Lemma run_vendor_map_any f self :
  vendor_map f self = (Ok (consent_object self ≫= f), self).
Proof. reflexivity. Qed.

Lemma run_unavailable self co :
  consent_object self = Some co ->
  str_truthy (error_state self) = false ->
  unavailable self = (Ok false, self).
Proof.
  intros Hco Herr. unfold unavailable, bind, attr, ret. now rewrite Hco, Herr.
Qed.

Lemma run_vendor_map f self co :
  consent_object self = Some co -> vendor_map f self = (Ok (f co), self).
Proof. intros Hco. unfold vendor_map, bind, attr, ret. now rewrite Hco. Qed.

(** A loop that, for every vendor with consent, stores the record [f]
    gives for it, and leaves the result alone otherwise. *)
Lemma for_each_insert (l : list (Z * bool)) (f : Z -> option json)
    (body : Z * bool -> gmap Z json -> M (gmap Z json)) self :
  (forall v acc, (v, true) ∈ l ->
     body (v, true) acc self = (Ok (from_option (fun r => <[v := r]> acc) acc (f v)), self)) ->
  (forall v acc, body (v, false) acc self = (Ok acc, self)) ->
  forall acc, exists res,
    for_each l body acc self = (Ok res, self) /\
    forall v r, res !! v = Some r <->
      ((v, true) ∈ l /\ f v = Some r) \/
      (~ ((v, true) ∈ l /\ is_Some (f v)) /\ acc !! v = Some r).
Proof.
  induction l as [| [v0 c] l IH]; intros Htrue Hfalse acc; simpl.
  - exists acc. split; [reflexivity |]. intros v r. split.
    + intros H. right. split; [| exact H]. intros [Hin _]. inversion Hin.
    + intros [[Hin _] | [_ H]]; [inversion Hin | exact H].
  - specialize (IH (fun v a Hin => Htrue v a (list_elem_of_further _ _ _ Hin)) Hfalse).
    destruct c.
    + rewrite (run_bind_ok _ _ _ _ _ (Htrue v0 acc ltac:(left))).
      destruct (IH (from_option (fun r => <[v0 := r]> acc) acc (f v0))) as (res & Hrun & Hres).
      exists res. split; [exact Hrun |]. intros v r. rewrite Hres, elem_of_cons.
      destruct (f v0) as [r0 |] eqn:Hf0; simpl.
      * destruct (decide (v = v0)) as [-> | Hne].
        -- rewrite lookup_insert_eq, Hf0. split.
           ++ intros [[_ H] | [_ H]]; left; split; auto.
           ++ intros [[_ H] | [Hn _]]; [| exfalso; apply Hn; eauto].
              destruct (decide ((v0, true) ∈ l)); [left; auto |].
              right. split; [| congruence]. intros [? _]. contradiction.
        -- rewrite lookup_insert_ne by congruence.
           split; (intros [[H1 H2] | [H1 H2]]; [left | right]); split; auto.
           ++ intros [[Heq | Hin] Hs]; [congruence |]. apply H1. auto.
           ++ destruct H1 as [Heq | Hin]; [congruence | assumption].
           ++ intros [Hin Hs]. apply H1. auto.
      * split; (intros [[H1 H2] | [H1 H2]]; [left | right]); split; auto.
        -- intros [[Heq | Hin] Hs]; [| apply H1; auto].
           injection Heq as ->. rewrite Hf0 in Hs. destruct Hs; discriminate.
        -- destruct H1 as [Heq | Hin]; [| assumption].
           injection Heq as ->. congruence.
        -- intros [Hin Hs]. apply H1. auto.
    + rewrite (run_bind_ok _ _ _ _ _ (Hfalse v0 acc)).
      destruct (IH acc) as (res & Hrun & Hres).
      exists res. split; [exact Hrun |]. intros v r. rewrite Hres, elem_of_cons.
      split; (intros [[H1 H2] | [H1 H2]]; [left | right]); split; auto.
      * intros [[Heq | Hin] Hs]; [discriminate |]. apply H1. auto.
      * destruct H1 as [Heq | Hin]; [discriminate | assumption].
      * intros [Hin Hs]. apply H1. auto.
Qed.

Lemma reported_name_mapping self v o :
  default (JObj []) (gvl_entry self v) = JObj o ->
  reported_name self v = default (JStr "unknown") (dict_lookup "name" o).
Proof.
  unfold reported_name, entry_field. intros H.
  destruct (gvl_entry self v) as [e |]; simpl in *.
  - now subst e.
  - now injection H as <-.
Qed.

Lemma entry_fields_mapping self v o k :
  default (JObj []) (gvl_entry self v) = JObj o ->
  entry_field self v k = dict_lookup k o.
Proof.
  unfold entry_field. intros H.
  destruct (gvl_entry self v) as [e |]; simpl in *.
  - now subst e.
  - now injection H as <-.
Qed.

Lemma intersection_no_required declared (required : gset Z) :
  required = ∅ -> intersection declared required = [].
Proof.
  intros ->. destruct (intersection declared ∅) as [| j l] eqn:Hinter; [reflexivity |].
  assert (Hj : j ∈ intersection declared ∅) by (rewrite Hinter; left).
  apply elem_of_intersection_inv in Hj as (z & _ & Hz & _).
  now apply not_elem_of_empty in Hz.
Qed.

Lemma matcher_run self co consented key required_ids require_all :
  consent_object self = Some co ->
  str_truthy (error_state self) = false ->
  co_consented_vendors co = Some consented ->
  (forall v, (v, true) ∈ consented -> is_ok (declared_ids_set self key v) = true) ->
  exists result,
    _get_consented_vendors_matching_gvl_list key required_ids require_all self
      = (Ok result, self) /\
    forall v r, result !! v = Some r <->
      (v, true) ∈ consented /\
      match_record self key (list_to_set required_ids) require_all v = Some r.
Proof.
  intros Hco Herr Hmap Hwf.
  unfold _get_consented_vendors_matching_gvl_list.
  rewrite (run_bind_ok _ _ _ _ _ (run_unavailable _ _ Hco Herr)).
  rewrite (run_bind_ok _ _ _ _ _ (run_vendor_map _ _ _ Hco)), Hmap.
  case_bool_decide as Hreq.
  - exists ∅. split; [reflexivity |]. intros v r. rewrite lookup_empty.
    split; [discriminate |]. intros [_ H]. unfold match_record in H.
    destruct (declared_ids_set self key v); [| discriminate].
    cbv zeta in H. rewrite (intersection_no_required _ _ Hreq) in H. discriminate.
  - match goal with
    | |- context [for_each _ ?b _ _] =>
        pose proof (fun Ht Hf =>
                      for_each_insert consented
                        (match_record self key (list_to_set required_ids) require_all)
                        b self Ht Hf ∅) as IH
    end.
    destruct IH as (res & Hrun & Hres).
    + intros v acc Hin. specialize (Hwf v Hin).
      rewrite (run_bind_ok _ _ _ _ _ (run__get_vendor_gvl_data v self)).
      unfold match_record, declared_ids_set in *.
      destruct (default (JObj []) (gvl_entry self v)) as [| | | | | o] eqn:Hdata;
        try discriminate.
      rewrite (reported_name_mapping _ _ _ Hdata).
      unfold bind, lift, ret. cbn [py_get] in *.
      destruct (py_set (default (JList []) (dict_lookup key o))) as [declared | e];
        [| discriminate].
      cbv zeta.
      match goal with |- context [if ?c then _ else _] => destruct c end; reflexivity.
    + intros v acc. reflexivity.
    + exists res. split; [exact Hrun |]. intros v r. rewrite Hres, lookup_empty.
      split.
      * intros [H | [_ H]]; [exact H | discriminate].
      * intros H. left. exact H.
Qed.

(** What the set of declared ids holds, in terms of the GVL entry. *)
Lemma declared_ids_set_spec self key v declared :
  declared_ids_set self key v = Ok declared ->
  NoDup (omap int_value declared) /\
  (forall z, (exists d, d ∈ declared /\ int_value d = Some z) <-> declares self key v z) /\
  (forall d, d ∈ declared -> is_Some (int_value d) ->
     exists l, entry_field self v key = Some (JList l) /\ In d l).
Proof.
  unfold declared_ids_set. intros Hset.
  destruct (default (JObj []) (gvl_entry self v)) as [| | | | | o] eqn:Hdata;
    try discriminate.
  cbn [py_get] in Hset. unfold py_set in Hset.
  pose proof (entry_fields_mapping self v o key Hdata) as Hfield.
  destruct (py_iter (default (JList []) (dict_lookup key o))) as [l |] eqn:Hiter;
    [| discriminate].
  destruct (forallb hashable l); [| discriminate]. injection Hset as <-.
  destruct (set_update_spec l []) as (Hsub & Hint & Hnd).
  assert (Hraw : forall d, d ∈ l -> is_Some (int_value d) ->
            entry_field self v key = Some (JList l)).
  { intros d Hd [z Hz]. rewrite Hfield.
    destruct (dict_lookup key o) as [j |]; simpl in Hiter.
    - destruct j; try discriminate; injection Hiter as <-.
      + apply list_elem_of_In, in_map_iff in Hd as (c & <- & _). discriminate.
      + reflexivity.
      + apply list_elem_of_In, in_map_iff in Hd as (kv & <- & _). discriminate.
    - injection Hiter as <-. inversion Hd. }
  split; [apply Hnd; constructor |]. split.
  - intros z. split.
    + intros (d & Hd & Hz).
      destruct (Hsub d Hd) as [Hin | Hin]; [inversion Hin |].
      exists l, d. split; [apply (Hraw d Hin); eauto |].
      split; [now apply list_elem_of_In |].
      destruct d; try discriminate; simpl in Hz; injection Hz as <-.
      * destruct b; [right; left | right; right]; now split.
      * now left.
    + intros (l' & j & Hl' & Hj & Hcase).
      assert (Hjz : int_value j = Some z).
      { destruct Hcase as [-> | [[-> ->] | [-> ->]]]; reflexivity. }
      assert (l' = l) as ->.
      { rewrite Hfield in Hl'. rewrite Hl' in Hiter. simpl in Hiter. congruence. }
      apply (Hint j z Hjz). right. now apply list_elem_of_In.
  - intros d Hd Hsome.
    destruct (Hsub d Hd) as [Hin | Hin]; [inversion Hin |].
    exists l. split; [now apply (Hraw d) | now apply list_elem_of_In].
Qed.

Lemma strictly_sorted (l : list Z) :
  Sorted Z.le l -> NoDup l -> StronglySorted Z.lt l.
Proof.
  intros Hs Hnd. apply Sorted_StronglySorted in Hs; [| intros x y z; apply Z.le_trans].
  induction Hs as [| x l Hs IH Hall]; [constructor |].
  apply NoDup_cons in Hnd as [Hx Hnd].
  constructor; [now apply IH |].
  rewrite Forall_forall in *. intros y Hy.
  specialize (Hall y Hy).
  assert (x <> y) by (intros ->; contradiction).
  lia.
Qed.

(** The integers of the intersection are the required integers that the
    vendor declares. *)
Lemma elem_of_intersection_ints self key v declared required_ids z :
  declared_ids_set self key v = Ok declared ->
  z ∈ int_of <$> intersection declared (list_to_set required_ids) <->
  z ∈ required_ids /\ declares self key v z.
Proof.
  intros Hset. destruct (declared_ids_set_spec _ _ _ _ Hset) as (_ & Hdecl & _).
  rewrite list_elem_of_fmap. split.
  - intros (j & -> & Hj).
    apply elem_of_intersection_inv in Hj as (z & Hz & Hreq & Hd & _).
    rewrite (int_of_int_value _ _ Hz). split.
    + now apply elem_of_list_to_set in Hreq.
    + now apply Hdecl.
  - intros [Hreq Hd].
    destruct (elem_of_intersection_intro declared (list_to_set required_ids) z)
      as (j & Hj & Hz).
    + now apply elem_of_list_to_set.
    + now apply Hdecl.
    + exists j. split; [symmetry; now apply int_of_int_value | exact Hj].
Qed.

Lemma set_equal_spec self key v declared required_ids :
  declared_ids_set self key v = Ok declared ->
  set_equal (intersection declared (list_to_set required_ids)) (list_to_set required_ids)
    = true <->
  forall z, z ∈ required_ids -> declares self key v z.
Proof.
  intros Hset. destruct (declared_ids_set_spec _ _ _ _ Hset) as (Hnd & _ & _).
  pose proof (intersection_NoDup declared (list_to_set required_ids) Hnd) as Hnd'.
  pose proof (elem_of_intersection_ints self key v declared required_ids) as Hints.
  set (common := intersection declared (list_to_set required_ids)) in *.
  assert (Hsub : (list_to_set (int_of <$> common) : gset Z) ⊆ list_to_set required_ids).
  { intros z Hz. apply elem_of_list_to_set in Hz. apply elem_of_list_to_set.
    now apply (Hints z Hset) in Hz. }
  assert (Hsize : size (list_to_set (int_of <$> common) : gset Z) = length common).
  { rewrite size_list_to_set by exact Hnd'. apply length_fmap. }
  unfold set_equal. rewrite andb_true_iff, Nat.eqb_eq. split.
  - intros [Hlen _] z Hz.
    assert (Heq : (list_to_set (int_of <$> common) : gset Z) = list_to_set required_ids).
    { apply set_subseteq_size_eq; [exact Hsub | lia]. }
    assert (Hin : z ∈ (list_to_set (int_of <$> common) : gset Z)).
    { rewrite Heq. now apply elem_of_list_to_set. }
    apply elem_of_list_to_set in Hin. now apply (Hints z Hset) in Hin.
  - intros Hall. split.
    + rewrite <- Hsize. f_equal. apply set_eq. intros z. split; [apply Hsub |].
      intros Hz. apply elem_of_list_to_set in Hz. apply elem_of_list_to_set.
      apply (Hints z Hset). split; [exact Hz | now apply Hall].
    + apply forallb_forall. intros j Hj. apply list_elem_of_In in Hj.
      apply elem_of_intersection_inv in Hj as (z & Hz & Hreq & _).
      apply in_int_set_spec. eauto.
Qed.

(** When a vendor qualifies, and the record it then gets. *)
Lemma match_record_spec self key v declared required_ids require_all :
  declared_ids_set self key v = Ok declared ->
  (is_Some (match_record self key (list_to_set required_ids) require_all v) <->
   (exists z, z ∈ required_ids /\ declares self key v z) /\
   (require_all = true -> forall z, z ∈ required_ids -> declares self key v z)) /\
  (forall r, match_record self key (list_to_set required_ids) require_all v = Some r ->
     intersection declared (list_to_set required_ids) <> [] /\
     r = JObj [("name", reported_name self v);
               ("matched_ids",
                JList (sorted (intersection declared (list_to_set required_ids))))]).
Proof.
  intros Hset.
  pose proof (elem_of_intersection_ints self key v declared required_ids) as Hints.
  pose proof (set_equal_spec self key v declared required_ids Hset) as Hequal.
  unfold match_record. rewrite Hset. cbv zeta.
  specialize (fun z => Hints z Hset).
  remember (intersection declared (list_to_set required_ids)) as common eqn:Hcommon in *.
  assert (Hany : common <> [] <-> exists z, z ∈ required_ids /\ declares self key v z).
  { split.
    - intros Hne. destruct common as [| j l]; [contradiction |].
      exists (int_of j). apply Hints. left.
    - intros (z & Hz) ->. apply Hints in Hz. inversion Hz. }
  split.
  - destruct common as [| j l].
    + split; [intros [r Hr]; discriminate |]. intros [Hex _].
      apply Hany in Hex. contradiction.
    + assert (Hne : j :: l <> []) by discriminate. apply Hany in Hne.
      destruct require_all.
      * destruct (set_equal (j :: l) (list_to_set required_ids)) eqn:Heq; split.
        -- intros _. split; [exact Hne |]. intros _. now apply Hequal.
        -- intros _. eauto.
        -- intros [r Hr]. discriminate.
        -- intros [_ Hall]. apply Hequal in Hall; [congruence | reflexivity].
      * split; [| eauto]. intros _. split; [exact Hne | discriminate].
  - intros r Hr. destruct common as [| j l]; [discriminate |].
    split; [discriminate |].
    destruct (if require_all then set_equal (j :: l) (list_to_set required_ids) else true);
      [now injection Hr as <- | discriminate].
Qed.

(** C1. On an instance with a consent object, no error and a consent map,
    and a GVL whose declarations under [gvl_list_key] can be made sets, the
    matcher returns a mapping in which a vendor has a record exactly when
    its consent value is true, it declares at least one of the required
    ids and, if [require_all] holds, it declares every one of them.  The
    record carries the name of the vendor and, as [matched_ids], the
    required ids that the vendor declares, each once, in strictly
    ascending order; an id is given by the integer itself, or by the
    boolean of the declared list that Python takes to be equal to it.
    Hence with [require_all] the matched ids of every record are exactly
    the required ids, and without it they are a non-empty part of them. *)
Theorem matching_vendors_spec self co consented key required_ids require_all :
  consent_object self = Some co ->
  str_truthy (error_state self) = false ->
  co_consented_vendors co = Some consented ->
  (forall v, (v, true) ∈ consented -> is_ok (declared_ids_set self key v) = true) ->
  exists result,
    _get_consented_vendors_matching_gvl_list key required_ids require_all self
      = (Ok result, self) /\
    (forall v,
       is_Some (result !! v) <->
       (v, true) ∈ consented /\
       (exists z, z ∈ required_ids /\ declares self key v z) /\
       (require_all = true -> forall z, z ∈ required_ids -> declares self key v z)) /\
    (forall v record,
       result !! v = Some record ->
       exists ids,
         record = JObj [("name", reported_name self v); ("matched_ids", JList ids)] /\
         StronglySorted Z.lt (int_of <$> ids) /\
         (forall j, j ∈ ids ->
            j = JInt (int_of j) \/
            exists b l,
              j = JBool b /\ entry_field self v key = Some (JList l) /\ In (JBool b) l) /\
         (forall z, z ∈ int_of <$> ids <-> z ∈ required_ids /\ declares self key v z) /\
         (require_all = true -> forall z, z ∈ int_of <$> ids <-> z ∈ required_ids) /\
         (require_all = false ->
          ids <> [] /\ forall z, z ∈ int_of <$> ids -> z ∈ required_ids)).
Proof.
  intros Hco Herr Hmap Hwf.
  destruct (matcher_run self co consented key required_ids require_all Hco Herr Hmap Hwf)
    as (result & Hrun & Hres).
  assert (Hdeclared : forall v, (v, true) ∈ consented ->
            exists declared, declared_ids_set self key v = Ok declared).
  { intros v Hin. specialize (Hwf v Hin).
    destruct (declared_ids_set self key v) as [declared | e]; [eauto | discriminate]. }
  exists result. split; [exact Hrun |]. split.
  - intros v. split.
    + intros [r Hr]. apply Hres in Hr as [Hin Hrec]. split; [exact Hin |].
      destruct (Hdeclared v Hin) as [declared Hset].
      apply (match_record_spec self key v declared required_ids require_all Hset). eauto.
    + intros (Hin & Hany & Hall).
      destruct (Hdeclared v Hin) as [declared Hset].
      destruct (proj2 (proj1 (match_record_spec self key v declared required_ids
                                require_all Hset)) (conj Hany Hall)) as [r Hr].
      exists r. apply Hres. now split.
  - intros v record Hlook. apply Hres in Hlook as [Hin Hrec].
    destruct (Hdeclared v Hin) as [declared Hset].
    pose proof (match_record_spec self key v declared required_ids require_all Hset)
      as [Hqual Hform].
    destruct (Hform record Hrec) as [Hne ->].
    assert (Hsome : is_Some (match_record self key (list_to_set required_ids)
                               require_all v)) by eauto.
    apply Hqual in Hsome as [_ Hall].
    destruct (declared_ids_set_spec _ _ _ _ Hset) as (Hnd & _ & Hraw).
    set (common := intersection declared (list_to_set required_ids)) in *.
    assert (Hperm : int_of <$> sorted common ≡ₚ int_of <$> common).
    { apply fmap_Permutation, sorted_Permutation. }
    assert (Hints : forall z,
              z ∈ int_of <$> sorted common <-> z ∈ required_ids /\ declares self key v z).
    { intros z. rewrite Hperm. now apply elem_of_intersection_ints. }
    exists (sorted common). split; [reflexivity |]. split.
    { apply strictly_sorted; [apply sorted_Sorted |].
      rewrite Hperm. now apply intersection_NoDup. }
    split.
    { intros j Hj. apply (proj1 (elem_of_sorted _ _)) in Hj. unfold common in Hj.
      apply elem_of_intersection_inv in Hj as (z & Hz & _ & _ & [-> | Hd]).
      - now left.
      - destruct j; try discriminate.
        + right. destruct (Hraw (JBool b) Hd ltac:(eauto)) as (l & Hl & Hb). eauto.
        + left. reflexivity. }
    split; [exact Hints |]. split.
    + intros Hreq z. rewrite Hints. split; [tauto |]. intros Hz. split; [exact Hz |].
      now apply Hall.
    + intros _. split.
      * intros Hnil. apply Hne. now apply sorted_nil.
      * intros z Hz. now apply Hints in Hz.
Qed.

Lemma matching_vendors_spec_witness :
  exists result,
    _get_consented_vendors_matching_gvl_list "purposes" [1; 2] false scenario
      = (Ok result, scenario) /\
    forall v record, result !! v = Some record -> (v, true) ∈ scenario_consent.
Proof.
  destruct (matching_vendors_spec scenario
              (consent_of (Some (Some 300)) (Some scenario_consent))
              scenario_consent "purposes" [1; 2] false)
    as (result & Hrun & Hiff & _).
  - reflexivity.
  - reflexivity.
  - reflexivity.
  - intros v Hin.
    repeat (apply elem_of_cons in Hin as [Hin | Hin];
            [injection Hin as ->; try discriminate; vm_compute; reflexivity |]).
    inversion Hin.
  - exists result. split; [exact Hrun |].
    intros v record Hlook. apply (Hiff v). eauto.
Defined.

(** The scenario of the specification, run on the model. *)
Example scenario_any :
  fst (get_consented_vendors_for_purposes [1; 2] false scenario) =
    Ok (<[10 := JObj [("name", JStr "Ten"); ("matched_ids", JList [JInt 1])]]>
          (<[30 := JObj [("name", JStr "Thirty"); ("matched_ids", JList [JInt 2])]]> ∅)).
Proof. vm_compute. reflexivity. Qed.

Example scenario_all :
  fst (get_consented_vendors_for_purposes [1; 2] true scenario) = Ok ∅.
Proof. vm_compute. reflexivity. Qed.

(** A declared [true] is equal to the required id [1].  The declared set
    is the smaller one here, so the matched id is its element [True]. *)
Example declared_true_smaller :
  fst (get_consented_vendors_for_purposes [1; 2] false
         (instance [("5", JObj [("purposes", JList [JBool true])])] []
            (Some (consent_of None (Some [(5, true)]))) None)) =
    Ok (<[5 := JObj [("name", JStr "unknown"); ("matched_ids", JList [JBool true])]]> ∅).
Proof. vm_compute. reflexivity. Qed.

(** With a declared set that is not the smaller one, the matched id is the
    required integer. *)
Example declared_true_larger :
  fst (get_consented_vendors_for_purposes [1] false
         (instance [("5", JObj [("purposes", JList [JBool true; JInt 3])])] []
            (Some (consent_of None (Some [(5, true)]))) None)) =
    Ok (<[5 := JObj [("name", JStr "unknown"); ("matched_ids", JList [JInt 1])]]> ∅).
Proof. vm_compute. reflexivity. Qed.

(** C2. With an empty list of required ids the matcher returns the empty
    mapping, for every key, either value of [require_all] and every
    instance; so do the five public queries built on it. *)
Theorem empty_required_ids self key require_all :
  _get_consented_vendors_matching_gvl_list key [] require_all self = (Ok ∅, self) /\
  get_consented_vendors_for_purposes [] require_all self = (Ok ∅, self) /\
  get_consented_vendors_for_special_purposes [] require_all self = (Ok ∅, self) /\
  get_consented_vendors_for_features [] require_all self = (Ok ∅, self) /\
  get_consented_vendors_for_special_features [] require_all self = (Ok ∅, self) /\
  get_consented_vendors_for_flexible_purposes [] require_all self = (Ok ∅, self).
Proof.
  assert (H : forall k, _get_consented_vendors_matching_gvl_list k [] require_all self
                        = (Ok ∅, self)).
  { intros k. unfold _get_consented_vendors_matching_gvl_list.
    rewrite (run_bind_ok _ _ _ _ _ (run_unavailable_any self)).
    destruct (negb (bool_decide (is_Some (consent_object self)))
              || str_truthy (error_state self)); [reflexivity |].
    rewrite (run_bind_ok _ _ _ _ _ (run_vendor_map_any _ self)).
    destruct (consent_object self ≫= co_consented_vendors); [| reflexivity].
    rewrite bool_decide_eq_true_2 by reflexivity. reflexivity. }
  repeat split; apply H.
Qed.

(** ** The public queries only read the instance *)

Lemma readonly_get_consented_vendors b : readonly (get_consented_vendors b).
Proof. unfold get_consented_vendors. readonly_tac. Qed.

Lemma readonly_get_cmp_details : readonly get_cmp_details.
Proof. unfold get_cmp_details. readonly_tac. Qed.

Lemma readonly_get_vendors_using_legitimate_interest :
  readonly get_vendors_using_legitimate_interest.
Proof. unfold get_vendors_using_legitimate_interest. readonly_tac. Qed.

Lemma readonly__get_consented_vendors_matching_gvl_list key ids b :
  readonly (_get_consented_vendors_matching_gvl_list key ids b).
Proof. unfold _get_consented_vendors_matching_gvl_list. readonly_tac. Qed.

Lemma readonly_get_vendor_urls v : readonly (get_vendor_urls v).
Proof. unfold get_vendor_urls. readonly_tac. Qed.

Lemma readonly__get_consented_vendors_by_gvl_flag key :
  readonly (_get_consented_vendors_by_gvl_flag key).
Proof. unfold _get_consented_vendors_by_gvl_flag. readonly_tac. Qed.

#[global] Hint Resolve readonly_get_consented_vendors readonly_get_cmp_details
  readonly_get_vendors_using_legitimate_interest
  readonly__get_consented_vendors_matching_gvl_list readonly_get_vendor_urls
  readonly__get_consented_vendors_by_gvl_flag : readonly.

Section Projections.

Variable isoformat_utc : datetime -> Res string.
Variable datetime_str : datetime -> string.
Variable decode_utf8_replace : list Byte.byte -> Res string.

Lemma readonly__safe_get name :
  readonly (_safe_get isoformat_utc datetime_str decode_utf8_replace name).
Proof. unfold _safe_get. readonly_tac. Qed.

Lemma readonly_get_metadata :
  readonly (get_metadata isoformat_utc datetime_str decode_utf8_replace).
Proof.
  unfold get_metadata.
  repeat first [ apply readonly__safe_get | readonly_step ].
Qed.

Lemma readonly_call q :
  readonly (call isoformat_utc datetime_str decode_utf8_replace q).
Proof.
  destruct q; unfold call, get_consented_vendors_for_purposes,
    get_consented_vendors_for_special_purposes, get_consented_vendors_for_features,
    get_consented_vendors_for_special_features,
    get_consented_vendors_for_flexible_purposes,
    get_consented_vendors_using_cookies,
    get_consented_vendors_using_non_cookie_access;
    (apply readonly_bind; [| intros ?; apply readonly_ret]);
    auto using readonly_get_metadata with readonly.
Qed.

(** C9. A public query leaves the instance as it found it: the consent
    object, the GVL index, the CMP list index and the error state after the
    call are those before it; and the same query called a second time,
    with the same arguments, returns what the first call returned. *)
Theorem queries_are_projections q self :
  let first_call := call isoformat_utc datetime_str decode_utf8_replace q self in
  let second_call :=
    call isoformat_utc datetime_str decode_utf8_replace q (snd first_call) in
  snd first_call = self /\
  consent_object (snd first_call) = consent_object self /\
  gvl_vendors_dict (snd first_call) = gvl_vendors_dict self /\
  cmp_list_dict (snd first_call) = cmp_list_dict self /\
  error_state (snd first_call) = error_state self /\
  fst second_call = fst first_call /\
  snd second_call = self.
Proof.
  cbv zeta. rewrite (readonly_call q self). repeat split; reflexivity || apply readonly_call.
Qed.

End Projections.

(** ** Construction *)

Section Construction.

Variable read_json : string -> Res json.
Variable decode : string -> Res ConsentObject.

(** What [_load_gvl] leaves alone. *)
Lemma _load_gvl_frame self :
  exists self',
    _load_gvl read_json self = (Ok tt, self') /\
    consent_string self' = consent_string self /\
    gvl_filepath self' = gvl_filepath self /\
    cmp_list_filepath self' = cmp_list_filepath self /\
    cmp_list_dict self' = cmp_list_dict self /\
    consent_object self' = consent_object self /\
    error_state self' = error_state self /\
    (gvl_load_failure (read_json (gvl_filepath self)) = true ->
     gvl_vendors_dict self' = []).
Proof.
  unfold _load_gvl, try_except, bind, attr, lift, assign, gvl_load_failure.
  destruct (read_json (gvl_filepath self)) as [[| | | | | o] | e]; simpl;
    try (eexists; repeat split; reflexivity).
  destruct (dict_lookup "vendors" o) as [[| | | | | vs] |]; simpl;
    try (eexists; repeat split; reflexivity).
  eexists. repeat split. discriminate.
Qed.

(** What [_load_cmp_list] leaves alone. *)
Lemma _load_cmp_list_frame self :
  exists self',
    _load_cmp_list read_json self = (Ok tt, self') /\
    consent_string self' = consent_string self /\
    gvl_vendors_dict self' = gvl_vendors_dict self /\
    consent_object self' = consent_object self /\
    error_state self' = error_state self /\
    (cmp_load_failure (read_json (cmp_list_filepath self)) = true ->
     cmp_list_dict self' = []).
Proof.
  unfold _load_cmp_list, try_except, bind, attr, lift, assign, cmp_load_failure.
  destruct (read_json (cmp_list_filepath self)) as [[| | | | | o] | e]; simpl;
    try (eexists; repeat split; reflexivity).
  destruct (dict_lookup "cmps" o) as [[| | | | | cs] |]; simpl;
    try (eexists; repeat split; reflexivity);
    eexists; repeat split; discriminate.
Qed.

(** The two outcomes of [_decode_tcf]. *)
Lemma _decode_tcf_run self :
  exists self',
    _decode_tcf decode self = (Ok tt, self') /\
    gvl_vendors_dict self' = gvl_vendors_dict self /\
    cmp_list_dict self' = cmp_list_dict self /\
    match (if String.eqb (consent_string self) "" then None
           else match decode (consent_string self) with
                | Ok co => Some co
                | Raise _ => None
                end) with
    | Some co => consent_object self' = Some co /\ error_state self' = error_state self
    | None =>
        consent_object self' = None /\
        exists msg, error_state self' = Some msg /\ String.eqb msg "" = false
    end.
Proof.
  unfold _decode_tcf, try_except, bind, attr, lift, assign.
  destruct (String.eqb (consent_string self) ""); simpl.
  - eexists. repeat split. eexists. split; reflexivity.
  - destruct (decode (consent_string self)) as [co | e]; simpl.
    + eexists. repeat split.
    + eexists. repeat split. eexists. split; reflexivity.
Qed.

(** [__init__] step by step. *)
Lemma __init___run cs gp cp :
  exists self,
    __init__ read_json decode cs gp cp = (Ok tt, self) /\
    (gvl_load_failure (read_json gp) = true -> gvl_vendors_dict self = []) /\
    (cmp_load_failure (read_json cp) = true -> cmp_list_dict self = []) /\
    match (if String.eqb (default "" cs) "" then None
           else match decode (default "" cs) with
                | Ok co => Some co
                | Raise _ => None
                end) with
    | Some co => consent_object self = Some co /\ error_state self = None
    | None =>
        consent_object self = None /\
        exists msg, error_state self = Some msg /\ String.eqb msg "" = false
    end.
Proof.
  unfold __init__.
  match goal with |- context [bind _ _ ?s] => set (s0 := s) end.
  destruct (_load_gvl_frame s0) as (s1 & Hrun1 & Hcs1 & _ & Hcp1 & _ & _ & Herr1 & Hgvl).
  destruct (_load_cmp_list_frame s1) as (s2 & Hrun2 & Hcs2 & Hgvl2 & _ & Herr2 & Hcmp).
  destruct (_decode_tcf_run s2) as (s3 & Hrun3 & Hgvl3 & Hcmp3 & Hdec).
  exists s3.
  rewrite (run_bind_ok _ _ _ _ _ Hrun1), (run_bind_ok _ _ _ _ _ Hrun2).
  split; [exact Hrun3 |].
  rewrite Hgvl3, Hgvl2, Hcmp3, Hcp1, Hcs2, Hcs1, Herr2, Herr1 in *.
  repeat split; assumption.
Qed.

Lemma _decode_tcf_error self :
  error_state (snd (_decode_tcf decode self)) =
    match fatal_error decode (consent_string self) with
    | Some msg => Some msg
    | None => error_state self
    end.
Proof.
  unfold _decode_tcf, fatal_error, try_except, bind, attr, lift, assign.
  destruct (String.eqb (consent_string self) ""); simpl; [reflexivity |].
  destruct (decode (consent_string self)); reflexivity.
Qed.

Lemma __init___error cs gp cp :
  error_state (snd (__init__ read_json decode cs gp cp)) = fatal_error decode (default "" cs).
Proof.
  unfold __init__.
  match goal with |- context [bind _ _ ?s] => set (s0 := s) end.
  destruct (_load_gvl_frame s0) as (s1 & Hrun1 & Hcs1 & _ & _ & _ & _ & Herr1 & _).
  destruct (_load_cmp_list_frame s1) as (s2 & Hrun2 & Hcs2 & _ & _ & Herr2 & _).
  rewrite (run_bind_ok _ _ _ _ _ Hrun1), (run_bind_ok _ _ _ _ _ Hrun2).
  rewrite _decode_tcf_error, Hcs2, Hcs1, Herr2, Herr1. simpl.
  now destruct (fatal_error decode (default "" cs)).
Qed.

End Construction.

(** C7. Whatever the two sources hold, [__init__] returns without
    raising.  When the GVL source fails to load (file absent, not JSON,
    not a mapping, or without a ['vendors'] mapping) the GVL index is
    empty; when the CMP list source fails to load the CMP list index is
    empty; and the error state is the one the consent string and the
    decoder alone lead to, the same for every pair of sources: a load
    failure does not set it. *)
Theorem load_failure_is_not_fatal read_json decode cs gp cp :
  exists self,
    __init__ read_json decode cs gp cp = (Ok tt, self) /\
    (gvl_load_failure (read_json gp) = true -> gvl_vendors_dict self = []) /\
    (cmp_load_failure (read_json cp) = true -> cmp_list_dict self = []) /\
    error_state self = fatal_error decode (default "" cs) /\
    (forall other_sources,
       error_state (snd (__init__ other_sources decode cs gp cp)) = error_state self) /\
    (forall co, default "" cs <> "" -> decode (default "" cs) = Ok co ->
       error_state self = None /\ consent_object self = Some co).
Proof.
  destruct (__init___run read_json decode cs gp cp) as (self & Hrun & Hgvl & Hcmp & Hdec).
  assert (Herr : error_state self = fatal_error decode (default "" cs)).
  { rewrite <- (__init___error read_json decode cs gp cp). now rewrite Hrun. }
  exists self.
  split; [exact Hrun |]. split; [exact Hgvl |]. split; [exact Hcmp |].
  split; [exact Herr |]. split.
  - intros other. now rewrite __init___error.
  - intros co Hne Hco.
    destruct (String.eqb_spec (default "" cs) "") as [Heq | _]; [contradiction |].
    rewrite Hco in Hdec. exact (conj (proj2 Hdec) (proj1 Hdec)).
Qed.

Lemma load_failure_is_not_fatal_witness :
  exists self,
    __init__ no_files accept_all (Some "CQOK") "vendor-list.json" "cmp-list.json"
      = (Ok tt, self) /\
    gvl_vendors_dict self = [] /\
    cmp_list_dict self = [] /\
    error_state self = None.
Proof.
  destruct (load_failure_is_not_fatal no_files accept_all (Some "CQOK")
              "vendor-list.json" "cmp-list.json")
    as (self & Hrun & Hgvl & Hcmp & _ & _ & Hok).
  exists self. split; [exact Hrun |].
  split; [apply Hgvl; reflexivity |].
  split; [apply Hcmp; reflexivity |].
  apply (Hok (consent_of (Some (Some 300)) (Some [(7, true)]))).
  - discriminate.
  - reflexivity.
Defined.

(** ** Queries on an instance whose error state is set *)

Section ErrorState.

Variable read_json : string -> Res json.
Variable decode : string -> Res ConsentObject.
Variable isoformat_utc : datetime -> Res string.
Variable datetime_str : datetime -> string.
Variable decode_utf8_replace : list Byte.byte -> Res string.

Lemma call_on_error q self msg :
  consent_object self = None ->
  error_state self = Some msg ->
  String.eqb msg "" = false ->
  is_vendor_urls q = false ->
  call isoformat_utc datetime_str decode_utf8_replace q self
    = (Ok (empty_answer msg q), self).
Proof.
  intros Hco Herr Hmsg Hq.
  destruct q; try discriminate;
    unfold call, get_metadata, get_consented_vendors, get_cmp_details,
      get_vendors_using_legitimate_interest,
      get_consented_vendors_for_purposes, get_consented_vendors_for_special_purposes,
      get_consented_vendors_for_features, get_consented_vendors_for_special_features,
      get_consented_vendors_for_flexible_purposes,
      get_consented_vendors_using_cookies, get_consented_vendors_using_non_cookie_access,
      _get_consented_vendors_matching_gvl_list, _get_consented_vendors_by_gvl_flag,
      unavailable, bind, attr, ret;
    rewrite ?Hco, ?Herr; simpl; rewrite ?Herr; simpl; rewrite ?Hmsg; reflexivity.
Qed.

Lemma vendor_urls_ignore_error v e self :
  fst (get_vendor_urls v (set_error_state e self)) = fst (get_vendor_urls v self).
Proof.
  unfold get_vendor_urls.
  rewrite !(run_bind_ok _ _ _ _ _ (run_attr _ _)).
  change (gvl_vendors_dict (set_error_state e self)) with (gvl_vendors_dict self).
  destruct (negb (dict_truthy (gvl_vendors_dict self))); [reflexivity |].
  rewrite !(run_bind_ok _ _ _ _ _ (run__get_vendor_gvl_data _ _)).
  change (gvl_entry (set_error_state e self) v) with (gvl_entry self v).
  destruct (negb (truthy (default (JObj []) (gvl_entry self v)))); [reflexivity |].
  unfold bind, lift, ret.
  repeat match goal with |- context [py_get ?a ?b ?c] => destruct (py_get a b c) end;
    reflexivity.
Qed.

(** C4, as amended.  When the consent string is empty or the decoder
    fails, construction sets the error state, and every public query
    other than [get_vendor_urls] returns its documented empty result
    (the error message under ['error'], the empty list or the empty
    mapping) without raising and without reading the GVL or the CMP list.
    [get_vendor_urls] does not look at the error state: it answers from
    the GVL index alone. *)
Theorem error_state_short_circuits cs gp cp :
  default "" cs = "" \/ is_ok (decode (default "" cs)) = false ->
  exists self msg,
    __init__ read_json decode cs gp cp = (Ok tt, self) /\
    error_state self = Some msg /\
    str_truthy (error_state self) = true /\
    (forall q, is_vendor_urls q = false ->
       call isoformat_utc datetime_str decode_utf8_replace q self
         = (Ok (empty_answer msg q), self) /\
       documented_empty q (empty_answer msg q)) /\
    (forall v e,
       fst (call isoformat_utc datetime_str decode_utf8_replace (GetVendorUrls v)
              (set_error_state e self))
       = fst (call isoformat_utc datetime_str decode_utf8_replace (GetVendorUrls v) self)).
Proof.
  intros Hfatal.
  destruct (__init___run read_json decode cs gp cp) as (self & Hrun & _ & _ & Hdec).
  assert (Hnone : (if String.eqb (default "" cs) "" then None
                   else match decode (default "" cs) with
                        | Ok co => Some co
                        | Raise _ => None
                        end) = None).
  { destruct Hfatal as [-> | Hfail]; [reflexivity |].
    destruct (String.eqb (default "" cs) ""); [reflexivity |].
    destruct (decode (default "" cs)); [discriminate | reflexivity]. }
  rewrite Hnone in Hdec. destruct Hdec as (Hco & msg & Herr & Hmsg).
  exists self, msg. split; [exact Hrun |]. split; [exact Herr |].
  split; [rewrite Herr; simpl; now rewrite Hmsg |]. split.
  - intros q Hq. split; [now apply call_on_error |].
    destruct q; try discriminate; simpl; eauto.
  - intros v e. unfold call, bind.
    pose proof (vendor_urls_ignore_error v e self) as Hurls.
    destruct (get_vendor_urls v (set_error_state e self)) as [[a | x] s'];
      destruct (get_vendor_urls v self) as [[a' | x'] s'']; simpl in *; congruence.
Qed.

End ErrorState.

Lemma error_state_short_circuits_witness :
  exists self msg,
    __init__ gvl_only accept_all None "vendor-list.json" "cmp-list.json" = (Ok tt, self) /\
    error_state self = Some msg /\
    call iso_example str_example utf8_example (GetConsentedVendors true) self
      = (Ok (AList []), self).
Proof.
  destruct (error_state_short_circuits gvl_only accept_all
              iso_example str_example utf8_example
              None "vendor-list.json" "cmp-list.json")
    as (self & msg & Hrun & Herr & _ & Hq & _).
  - left. reflexivity.
  - exists self, msg. split; [exact Hrun |]. split; [exact Herr |].
    apply (Hq (GetConsentedVendors true)). reflexivity.
Defined.

(** C4, as stated, fails for [get_vendor_urls]: on the instance built from
    an empty consent string and a GVL file that lists vendor 7, the error
    state is set and the query still returns the policy URL of the vendor,
    with no ['error'] entry. *)
Lemma error_state_short_circuits_counterexample :
  error_state (snd (__init__ gvl_only reject_all (Some "")
                      "vendor-list.json" "cmp-list.json"))
    = Some "Consent string is empty." /\
  fst (call iso_example str_example utf8_example (GetVendorUrls 7)
         (snd (__init__ gvl_only reject_all (Some "")
                 "vendor-list.json" "cmp-list.json")))
    = Ok (ADict [("policyUrl", JStr "https://seven.example/privacy");
                 ("deviceStorageDisclosureUrl", JStr "")]) /\
  ~ error_checked_first iso_example str_example utf8_example (GetVendorUrls 7)
      (snd (__init__ gvl_only reject_all (Some "")
              "vendor-list.json" "cmp-list.json")).
Proof.
  split; [vm_compute; reflexivity |].
  split; [vm_compute; reflexivity |].
  intros H. destruct H as (a & Ha & Hdoc); [vm_compute; reflexivity |].
  vm_compute in Ha. injection Ha as <-.
  destruct Hdoc as (Hurl & _). vm_compute in Hurl. discriminate.
Qed.

(** * Further properties of the class *)

(** ** Comprehensions and the list of consented vendors *)

Lemma run_comprehension_ok {A B} (f : A -> M B) (g : A -> B) (l : list A) self :
  (forall x, x ∈ l -> f x self = (Ok (g x), self)) ->
  comprehension f l self = (Ok (map g l), self).
Proof.
  induction l as [| x l IH]; intros Hf; simpl; [reflexivity |].
  rewrite (run_bind_ok _ _ _ _ _ (Hf x ltac:(left))).
  rewrite (run_bind_ok _ _ _ _ _ (IH (fun y Hy => Hf y (list_elem_of_further _ _ _ Hy)))).
  reflexivity.
Qed.

(** A comprehension one of whose elements raises, raises, when every
    element that raises raises an exception in [P]. *)
Lemma run_comprehension_raise {A B} (f : A -> M B) (P : exn -> Prop) (l : list A) x self :
  readonly_family f ->
  (forall y e, fst (f y self) = Raise e -> P e) ->
  x ∈ l ->
  (exists e, fst (f x self) = Raise e) ->
  exists e, comprehension f l self = (Raise e, self) /\ P e.
Proof.
  intros Hro HP Hin [e0 Hx].
  induction l as [| y l IH]; [inversion Hin |].
  simpl. unfold bind at 1.
  rewrite (readonly_run _ self (Hro y)).
  destruct (fst (f y self)) as [b | e] eqn:Hy.
  - apply elem_of_cons in Hin as [-> | Hin]; [congruence |].
    destruct (IH Hin) as (e & Hrun & He).
    exists e. split; [| exact He]. unfold bind. now rewrite Hrun.
  - exists e. split; [reflexivity | now apply (HP y)].
Qed.

Lemma _get_vendor_details_ok v self :
  entry_is_mapping self v -> exists r, _get_vendor_details v self = (Ok r, self).
Proof.
  intros Hmap.
  destruct (entry_is_mapping_inv _ _ Hmap) as (o & Ho & _).
  destruct (run__get_vendor_details v self o Ho) as (name & Hrun & _). eauto.
Qed.

(** The entry of a vendor that is not a mapping makes the resolver raise
    [AttributeError]; nothing else does. *)
Lemma _get_vendor_details_outcome v self :
  (entry_is_mapping self v /\ exists r, _get_vendor_details v self = (Ok r, self)) \/
  (~ entry_is_mapping self v /\
   exists e, _get_vendor_details v self = (Raise e, self) /\ is_attribute_error e).
Proof.
  destruct (gvl_entry self v) as [entry |] eqn:Hentry.
  - destruct (is_dict entry) eqn:Hdict.
    + left. assert (Hmap : entry_is_mapping self v).
      { intros e' He'. rewrite Hentry in He'. now injection He' as <-. }
      split; [exact Hmap |]. now apply _get_vendor_details_ok.
    + right. split.
      { intros Hmap. specialize (Hmap entry Hentry). congruence. }
      unfold _get_vendor_details.
      rewrite (run_bind_ok _ _ _ _ _ (run__get_vendor_gvl_data v self)), Hentry.
      unfold bind, attr, lift, ret. simpl default.
      assert (Hloaded : dict_truthy (gvl_vendors_dict self) = true).
      { unfold gvl_entry in Hentry. now destruct (gvl_vendors_dict self). }
      rewrite Hloaded. simpl negb. cbv iota.
      destruct entry; try discriminate; simpl;
        repeat match goal with |- context [if ?b then _ else _] => destruct b end;
        eexists; split; reflexivity.
  - left. assert (Hmap : entry_is_mapping self v).
    { intros e' He'. congruence. }
    split; [exact Hmap |]. now apply _get_vendor_details_ok.
Qed.

Lemma elem_of_consented_ids m v : v ∈ consented_ids m <-> (v, true) ∈ m.
Proof.
  unfold consented_ids. rewrite list_elem_of_In, in_map_iff. split.
  - intros ([v' c] & <- & Hin). apply list_elem_of_In, list_elem_of_filter in Hin.
    simpl in *. destruct Hin as [-> Hin]. exact Hin.
  - intros Hin. exists (v, true). split; [reflexivity |].
    apply list_elem_of_In, list_elem_of_filter. now split.
Qed.

Lemma run_get_consented_vendors b self co m :
  available self co ->
  co_consented_vendors co = Some m ->
  get_consented_vendors b self =
    (if negb b then ret (map JInt (consented_ids m))
     else comprehension (fun vid => bind (_get_vendor_details vid) (fun d => ret (JObj d)))
            (consented_ids m)) self.
Proof.
  intros [Hco Herr] Hm. unfold get_consented_vendors.
  rewrite (run_bind_ok _ _ _ _ _ (run_unavailable _ _ Hco Herr)).
  rewrite (run_bind_ok _ _ _ _ _ (run_vendor_map _ _ _ Hco)), Hm.
  fold (consented_ids m). destruct (consented_ids m); [| reflexivity].
  now destruct b.
Qed.

(** X1. Without details, the list of consented vendors holds exactly the
    ids whose consent value is true, in the order of the consent map. *)
Theorem consented_vendor_ids self co m :
  available self co ->
  co_consented_vendors co = Some m ->
  exists ids,
    get_consented_vendors false self = (Ok (map JInt ids), self) /\
    sublist ids (map fst m) /\
    forall v, v ∈ ids <-> (v, true) ∈ m.
Proof.
  intros Hav Hm. exists (consented_ids m).
  split; [now rewrite (run_get_consented_vendors false self co m) |].
  split; [| apply elem_of_consented_ids].
  unfold consented_ids.
  change (map fst ?l) with (fst <$> l).
  apply fmap_sublist, sublist_filter.
Qed.

Lemma consented_vendor_ids_witness :
  exists ids,
    get_consented_vendors false scenario = (Ok (map JInt ids), scenario) /\
    sublist ids [10; 20; 30] /\
    forall v, v ∈ ids <-> (v, true) ∈ scenario_consent.
Proof.
  apply (consented_vendor_ids scenario
           (consent_of (Some (Some 300)) (Some scenario_consent)) scenario_consent).
  - split; reflexivity.
  - reflexivity.
Defined.

(** X2. With details, the list holds one detail record per consented
    vendor, in the order of the ids: the record the resolver gives for
    that vendor.  This needs the GVL entry of every consented vendor to
    be a mapping. *)
Theorem consented_vendor_details self co m :
  available self co ->
  co_consented_vendors co = Some m ->
  (forall v, (v, true) ∈ m -> entry_is_mapping self v) ->
  exists ids details,
    get_consented_vendors false self = (Ok (map JInt ids), self) /\
    get_consented_vendors true self = (Ok details, self) /\
    Forall2 (fun v d => exists r, d = JObj r /\ _get_vendor_details v self = (Ok r, self))
      ids details.
Proof.
  intros Hav Hm Hmap.
  set (record := fun v => match fst (_get_vendor_details v self) with
                          | Ok r => JObj r
                          | Raise _ => JNull
                          end).
  exists (consented_ids m), (map record (consented_ids m)).
  split; [now rewrite (run_get_consented_vendors false self co m) |].
  assert (Hrec : forall v, v ∈ consented_ids m ->
            exists r, record v = JObj r /\ _get_vendor_details v self = (Ok r, self)).
  { intros v Hv. apply elem_of_consented_ids in Hv.
    destruct (_get_vendor_details_ok v self (Hmap v Hv)) as (r & Hrun).
    exists r. split; [| exact Hrun]. unfold record. now rewrite Hrun. }
  split.
  - rewrite (run_get_consented_vendors true self co m) by assumption. simpl.
    apply run_comprehension_ok. intros v Hv.
    destruct (Hrec v Hv) as (r & Hr & Hrun).
    rewrite (run_bind_ok _ _ _ _ _ Hrun), Hr. reflexivity.
  - induction (consented_ids m) as [| v l IH]; simpl; constructor.
    + apply Hrec. now left.
    + apply IH. intros v' Hv'. apply Hrec. now right.
Qed.

Lemma consented_vendor_details_witness :
  exists ids details,
    get_consented_vendors false scenario = (Ok (map JInt ids), scenario) /\
    get_consented_vendors true scenario = (Ok details, scenario) /\
    length details = length ids.
Proof.
  destruct (consented_vendor_details scenario
              (consent_of (Some (Some 300)) (Some scenario_consent)) scenario_consent)
    as (ids & details & Hids & Hdetails & Hall).
  - split; reflexivity.
  - reflexivity.
  - intros v Hin e He.
    repeat (apply elem_of_cons in Hin as [Hin | Hin];
            [injection Hin as ->; try discriminate;
             vm_compute in He; injection He as <-; reflexivity |]).
    inversion Hin.
  - exists ids, details. repeat split; try assumption.
    symmetry. exact (Forall2_length _ _ _ Hall).
Defined.

(** X3. One consented vendor whose GVL entry is not a mapping makes the
    detailed list raise [AttributeError]: the batch is not completed.  The
    list of ids is not affected. *)
Theorem consented_vendor_details_raise self co m v :
  available self co ->
  co_consented_vendors co = Some m ->
  (v, true) ∈ m ->
  ~ entry_is_mapping self v ->
  (exists e, get_consented_vendors true self = (Raise e, self) /\ is_attribute_error e) /\
  (exists ids, get_consented_vendors false self = (Ok ids, self)).
Proof.
  intros Hav Hm Hin Hbad. split.
  - rewrite (run_get_consented_vendors true self co m) by assumption. simpl.
    apply run_comprehension_raise with (x := v).
    + intros x s. apply readonly_bind; [apply readonly__get_vendor_details |].
      intros ?. apply readonly_ret.
    + intros y e Hy. unfold bind in Hy.
      destruct (_get_vendor_details_outcome y self)
        as [(_ & r & Hrun) | (_ & e' & Hrun & He')]; rewrite Hrun in Hy.
      * discriminate.
      * simpl in Hy. now injection Hy as <-.
    + now apply elem_of_consented_ids.
    + destruct (_get_vendor_details_outcome v self)
        as [(Hmap & _) | (_ & e' & Hrun & _)]; [contradiction |].
      exists e'. unfold bind. now rewrite Hrun.
  - eexists. now rewrite (run_get_consented_vendors false self co m).
Qed.

Lemma consented_vendor_details_raise_witness :
  (exists e,
     get_consented_vendors true
       (instance broken_gvl [] (Some (consent_of None (Some [(8, true); (7, true)]))) None)
     = (Raise e,
        instance broken_gvl [] (Some (consent_of None (Some [(8, true); (7, true)]))) None) /\
     is_attribute_error e) /\
  (exists ids,
     get_consented_vendors false
       (instance broken_gvl [] (Some (consent_of None (Some [(8, true); (7, true)]))) None)
     = (Ok ids,
        instance broken_gvl [] (Some (consent_of None (Some [(8, true); (7, true)]))) None)).
Proof.
  apply (consented_vendor_details_raise _
           (consent_of None (Some [(8, true); (7, true)])) [(8, true); (7, true)] 7).
  - split; reflexivity.
  - reflexivity.
  - right. left.
  - intros H. specialize (H (JList [JInt 1]) ltac:(vm_compute; reflexivity)). discriminate.
Defined.

(** ** Legitimate interest and flag queries *)

(** X4. The legitimate-interest query has a record exactly for the vendors
    whose value in the legitimate-interest map is true; the record holds
    the name of the GVL entry, or ['unknown'], and its [legIntPurposes],
    or the empty list.  With an empty GVL index every such vendor is still
    listed, as ['unknown'] with no purposes. *)
Theorem legitimate_interest_vendors self co m :
  available self co ->
  co_legitimate_interest_vendors co = Some m ->
  (forall v, (v, true) ∈ m -> entry_is_mapping self v) ->
  exists result,
    get_vendors_using_legitimate_interest self = (Ok result, self) /\
    (forall v r,
       result !! v = Some r <->
       (v, true) ∈ m /\
       r = JObj [("name", reported_name self v);
                 ("declared_li_purposes",
                  default (JList []) (entry_field self v "legIntPurposes"))]) /\
    (gvl_vendors_dict self = [] ->
     forall v, (v, true) ∈ m ->
       result !! v = Some (JObj [("name", JStr "unknown");
                                 ("declared_li_purposes", JList [])])).
Proof.
  intros [Hco Herr] Hm Hmap.
  unfold get_vendors_using_legitimate_interest.
  rewrite (run_bind_ok _ _ _ _ _ (run_unavailable _ _ Hco Herr)).
  rewrite (run_bind_ok _ _ _ _ _ (run_vendor_map _ _ _ Hco)), Hm.
  match goal with
  | |- context [for_each _ ?b _ _] =>
      pose proof (fun Ht Hf =>
                    for_each_insert m
                      (fun v => Some (JObj [("name", reported_name self v);
                                            ("declared_li_purposes",
                                             default (JList [])
                                               (entry_field self v "legIntPurposes"))]))
                      b self Ht Hf ∅) as IH
  end.
  destruct IH as (res & Hrun & Hres).
  - intros v acc Hin.
    rewrite (run_bind_ok _ _ _ _ _ (run__get_vendor_gvl_data v self)).
    destruct (entry_is_mapping_inv _ _ (Hmap v Hin)) as (o & Ho & Hfield).
    rewrite Ho, (reported_name_mapping _ _ _ Ho), Hfield. reflexivity.
  - intros v acc. reflexivity.
  - assert (Hiff : forall v r,
      res !! v = Some r <->
      (v, true) ∈ m /\
      r = JObj [("name", reported_name self v);
                ("declared_li_purposes",
                 default (JList []) (entry_field self v "legIntPurposes"))]).
    { intros v r. rewrite Hres, lookup_empty. split.
      - intros [[Hin Hr] | [_ Hr]]; [| discriminate]. now injection Hr as <-.
      - intros [Hin ->]. left. now split. }
    exists res. split; [exact Hrun |]. split; [exact Hiff |].
    intros Hempty v Hin. apply Hiff. split; [exact Hin |].
    unfold reported_name, entry_field. now rewrite (gvl_entry_empty _ _ Hempty).
Qed.

Lemma legitimate_interest_vendors_witness :
  exists result,
    get_vendors_using_legitimate_interest
      (instance [] []
         (Some {| co_scalars := []; co_cmp_id := None; co_consented_vendors := None;
                  co_legitimate_interest_vendors := Some [(4, true); (5, false)] |}) None)
    = (Ok result,
       instance [] []
         (Some {| co_scalars := []; co_cmp_id := None; co_consented_vendors := None;
                  co_legitimate_interest_vendors := Some [(4, true); (5, false)] |}) None) /\
    result !! 4 = Some (JObj [("name", JStr "unknown"); ("declared_li_purposes", JList [])]).
Proof.
  destruct (legitimate_interest_vendors
              (instance [] []
                 (Some {| co_scalars := []; co_cmp_id := None; co_consented_vendors := None;
                          co_legitimate_interest_vendors := Some [(4, true); (5, false)] |})
                 None)
              {| co_scalars := []; co_cmp_id := None; co_consented_vendors := None;
                 co_legitimate_interest_vendors := Some [(4, true); (5, false)] |}
              [(4, true); (5, false)])
    as (result & Hrun & _ & Hempty).
  - split; reflexivity.
  - reflexivity.
  - intros v _ e He. vm_compute in He. discriminate.
  - exists result. split; [exact Hrun |]. apply Hempty; [reflexivity | left].
Defined.

(** X5. A flag query lists a vendor exactly when its consent value is true
    and the flag of its GVL entry is true in Python's sense (a missing
    flag counts as false); the value stored is the name of the entry, or
    ['unknown'].  With an empty GVL index the result is empty. *)
Theorem vendors_by_flag self co m key :
  available self co ->
  co_consented_vendors co = Some m ->
  (forall v, (v, true) ∈ m -> entry_is_mapping self v) ->
  exists result,
    _get_consented_vendors_by_gvl_flag key self = (Ok result, self) /\
    (forall v name,
       result !! v = Some name <->
       (v, true) ∈ m /\
       truthy (default (JBool false) (entry_field self v key)) = true /\
       name = reported_name self v) /\
    (gvl_vendors_dict self = [] -> result = ∅).
Proof.
  intros [Hco Herr] Hm Hmap.
  unfold _get_consented_vendors_by_gvl_flag.
  rewrite (run_bind_ok _ _ _ _ _ (run_unavailable _ _ Hco Herr)).
  rewrite (run_bind_ok _ _ _ _ _ (run_vendor_map _ _ _ Hco)), Hm.
  match goal with
  | |- context [for_each _ ?b _ _] =>
      pose proof (fun Ht Hf =>
                    for_each_insert m
                      (fun v => if truthy (default (JBool false) (entry_field self v key))
                                then Some (reported_name self v) else None)
                      b self Ht Hf ∅) as IH
  end.
  destruct IH as (res & Hrun & Hres).
  - intros v acc Hin.
    rewrite (run_bind_ok _ _ _ _ _ (run__get_vendor_gvl_data v self)).
    destruct (entry_is_mapping_inv _ _ (Hmap v Hin)) as (o & Ho & Hfield).
    rewrite Ho, (reported_name_mapping _ _ _ Ho), Hfield.
    unfold bind, lift, ret, py_get.
    now destruct (truthy (default (JBool false) (dict_lookup key o))).
  - intros v acc. reflexivity.
  - assert (Hiff : forall v name,
      res !! v = Some name <->
      (v, true) ∈ m /\
      truthy (default (JBool false) (entry_field self v key)) = true /\
      name = reported_name self v).
    { intros v name. rewrite Hres, lookup_empty.
      destruct (truthy (default (JBool false) (entry_field self v key))); split.
      - intros [[Hin Hr] | [_ Hr]]; [| discriminate]. now injection Hr as <-.
      - intros (Hin & _ & ->). left. now split.
      - intros [[_ Hr] | [_ Hr]]; discriminate.
      - intros (_ & Hf & _). discriminate. }
    exists res. split; [exact Hrun |]. split; [exact Hiff |].
    intros Hempty. apply map_eq. intros v. rewrite lookup_empty.
    destruct (res !! v) as [name |] eqn:Hv; [| reflexivity].
    apply Hiff in Hv as (_ & Hf & _).
    unfold entry_field in Hf. rewrite (gvl_entry_empty _ _ Hempty) in Hf. discriminate.
Qed.

Lemma vendors_by_flag_witness :
  exists result,
    get_consented_vendors_using_cookies
      (instance broken_gvl [] (Some (consent_of None (Some [(8, true); (9, true)]))) None)
    = (Ok result,
       instance broken_gvl [] (Some (consent_of None (Some [(8, true); (9, true)]))) None) /\
    result !! 8 = Some (JStr "Eight") /\
    result !! 9 = None.
Proof.
  destruct (vendors_by_flag
              (instance broken_gvl [] (Some (consent_of None (Some [(8, true); (9, true)]))) None)
              (consent_of None (Some [(8, true); (9, true)]))
              [(8, true); (9, true)] "usesCookies")
    as (result & Hrun & Hiff & _).
  - split; reflexivity.
  - reflexivity.
  - intros v Hin e He.
    repeat (apply elem_of_cons in Hin as [Hin | Hin];
            [injection Hin as ->; vm_compute in He;
             try discriminate; injection He as <-; reflexivity |]).
    inversion Hin.
  - exists result. split; [exact Hrun |]. split.
    + apply Hiff. split; [left |]. split; vm_compute; reflexivity.
    + destruct (result !! 9) as [name |] eqn:H9; [| reflexivity].
      apply Hiff in H9 as (_ & Hf & _). vm_compute in Hf. discriminate.
Defined.

(** ** More on the matcher *)

(** X6. Requiring all ids is stricter than requiring any: on the same
    instance, key and ids, every vendor of the [require_all] result is in
    the result without [require_all], with the same record. *)
Theorem matching_all_within_any self co m key required_ids :
  available self co ->
  co_consented_vendors co = Some m ->
  (forall v, (v, true) ∈ m -> is_ok (declared_ids_set self key v) = true) ->
  exists all any,
    _get_consented_vendors_matching_gvl_list key required_ids true self = (Ok all, self) /\
    _get_consented_vendors_matching_gvl_list key required_ids false self = (Ok any, self) /\
    all ⊆ any.
Proof.
  intros [Hco Herr] Hm Hwf.
  destruct (matcher_run self co m key required_ids true Hco Herr Hm Hwf)
    as (all & Hall & Hall_spec).
  destruct (matcher_run self co m key required_ids false Hco Herr Hm Hwf)
    as (any & Hany & Hany_spec).
  exists all, any. split; [exact Hall |]. split; [exact Hany |].
  apply map_subseteq_spec. intros v r Hv.
  apply Hall_spec in Hv as [Hin Hrec]. apply Hany_spec. split; [exact Hin |].
  unfold match_record in *.
  destruct (declared_ids_set self key v) as [declared | e]; [| discriminate].
  cbv zeta in *.
  destruct (intersection declared (list_to_set required_ids)) as [| j l];
    [discriminate |].
  destruct (set_equal (j :: l) (list_to_set required_ids)); [exact Hrec | discriminate].
Qed.

Lemma matching_all_within_any_witness :
  exists all any,
    _get_consented_vendors_matching_gvl_list "purposes" [1; 3] true scenario
      = (Ok all, scenario) /\
    _get_consented_vendors_matching_gvl_list "purposes" [1; 3] false scenario
      = (Ok any, scenario) /\
    all ⊆ any.
Proof.
  apply (matching_all_within_any scenario
           (consent_of (Some (Some 300)) (Some scenario_consent)) scenario_consent).
  - split; reflexivity.
  - reflexivity.
  - intros v Hin.
    repeat (apply elem_of_cons in Hin as [Hin | Hin];
            [injection Hin as ->; try discriminate; vm_compute; reflexivity |]).
    inversion Hin.
Defined.

(** X7. The matcher takes the required ids as a set: two lists with the
    same members, in any order and with any repetitions, give the same
    outcome on every instance. *)
Theorem matching_ignores_order_and_duplicates self key ids1 ids2 require_all :
  (forall z : Z, z ∈ ids1 <-> z ∈ ids2) ->
  _get_consented_vendors_matching_gvl_list key ids1 require_all self =
  _get_consented_vendors_matching_gvl_list key ids2 require_all self.
Proof.
  intros Hsame.
  assert (Hset : (list_to_set ids1 : gset Z) = list_to_set ids2).
  { apply set_eq. intros z. rewrite !elem_of_list_to_set. apply Hsame. }
  unfold _get_consented_vendors_matching_gvl_list. cbv zeta. now rewrite Hset.
Qed.

Lemma matching_ignores_order_and_duplicates_witness :
  _get_consented_vendors_matching_gvl_list "purposes" [1; 3] true scenario =
  _get_consented_vendors_matching_gvl_list "purposes" [3; 1; 3] true scenario.
Proof.
  apply matching_ignores_order_and_duplicates.
  intros z. rewrite !elem_of_cons, !elem_of_nil. tauto.
Defined.

Lemma intersection_nil (required : gset Z) : intersection [] required = [].
Proof.
  destruct (intersection [] required) as [| j l] eqn:Hinter; [reflexivity |].
  assert (Hj : j ∈ intersection [] required) by (rewrite Hinter; left).
  apply elem_of_intersection_inv in Hj as (z & _ & _ & (d & Hd & _) & _).
  inversion Hd.
Qed.

(** X8. With an empty GVL index no vendor matches: the matcher returns
    the empty mapping for every key, list of ids and mode, whatever the
    consent object holds. *)
Theorem matching_without_gvl self key required_ids require_all :
  gvl_vendors_dict self = [] ->
  _get_consented_vendors_matching_gvl_list key required_ids require_all self = (Ok ∅, self).
Proof.
  intros Hempty. unfold _get_consented_vendors_matching_gvl_list.
  rewrite (run_bind_ok _ _ _ _ _ (run_unavailable_any self)).
  destruct (negb (bool_decide (is_Some (consent_object self)))
            || str_truthy (error_state self)); [reflexivity |].
  rewrite (run_bind_ok _ _ _ _ _ (run_vendor_map_any _ self)).
  destruct (consent_object self ≫= co_consented_vendors) as [m |]; [| reflexivity].
  cbv zeta. case_bool_decide; [reflexivity |].
  match goal with
  | |- context [for_each _ ?b _ _] =>
      pose proof (fun Ht Hf => for_each_insert m (fun _ => None) b self Ht Hf ∅) as IH
  end.
  destruct IH as (res & Hrun & Hres).
  - intros v acc _.
    rewrite (run_bind_ok _ _ _ _ _ (run__get_vendor_gvl_data v self)).
    rewrite (gvl_entry_empty _ _ Hempty). unfold bind, lift, ret.
    cbn [default py_get dict_lookup py_set py_iter forallb set_update].
    cbv zeta. rewrite intersection_nil. reflexivity.
  - intros v acc. reflexivity.
  - rewrite Hrun. f_equal. f_equal. apply map_eq. intros v. rewrite lookup_empty.
    destruct (res !! v) as [r |] eqn:Hv; [| reflexivity].
    apply Hres in Hv as [[_ Hr] | [_ Hr]]; [discriminate |].
    rewrite lookup_empty in Hr. discriminate.
Qed.

Lemma matching_without_gvl_witness :
  _get_consented_vendors_matching_gvl_list "purposes" [1; 2] false
    (instance [] [] (Some (consent_of None (Some scenario_consent))) None)
  = (Ok ∅, instance [] [] (Some (consent_of None (Some scenario_consent))) None).
Proof. apply matching_without_gvl. reflexivity. Defined.

(** ** The URL lookup *)

Lemma run_get_vendor_urls v self :
  get_vendor_urls v self =
    (if negb (dict_truthy (gvl_vendors_dict self)) then
       Ok [("policyUrl", JStr ""); ("deviceStorageDisclosureUrl", JStr "");
           ("error", JStr "GVL not loaded or empty")]
     else if negb (truthy (default (JObj []) (gvl_entry self v))) then
       Ok [("policyUrl", JStr ""); ("deviceStorageDisclosureUrl", JStr "");
           ("error", JStr ("Vendor ID " +:+ str_of_int v +:+ " not found in GVL"))]
     else
       match py_get (default (JObj []) (gvl_entry self v)) "policyUrl" (JStr "") with
       | Ok policyUrl =>
           match py_get (default (JObj []) (gvl_entry self v))
                   "deviceStorageDisclosureUrl" (JStr "") with
           | Ok deviceStorageDisclosureUrl =>
               Ok [("policyUrl", policyUrl);
                   ("deviceStorageDisclosureUrl", deviceStorageDisclosureUrl)]
           | Raise e => Raise e
           end
       | Raise e => Raise e
       end, self).
Proof.
  unfold get_vendor_urls.
  rewrite (run_bind_ok _ _ _ _ _ (run_attr _ _)).
  destruct (negb (dict_truthy (gvl_vendors_dict self))); [reflexivity |].
  rewrite (run_bind_ok _ _ _ _ _ (run__get_vendor_gvl_data _ _)).
  destruct (negb (truthy (default (JObj []) (gvl_entry self v)))); [reflexivity |].
  unfold bind, lift, ret.
  repeat match goal with |- context [py_get ?a ?b ?c] => destruct (py_get a b c) end;
    reflexivity.
Qed.

(** X9. The URL lookup tells three cases apart.  With an empty GVL index
    it reports ['GVL not loaded or empty']; with no entry for the vendor,
    or an entry that is an empty mapping, it reports that the vendor id
    was not found; in both cases the two URLs are empty strings.  With a
    non-empty entry it returns the two URLs of the entry, an empty string
    for a missing one, and no ['error'] entry. *)
Theorem vendor_urls_outcomes self v :
  entry_is_mapping self v ->
  exists urls,
    get_vendor_urls v self = (Ok urls, self) /\
    dict_lookup "policyUrl" urls
      = Some (default (JStr "") (entry_field self v "policyUrl")) /\
    dict_lookup "deviceStorageDisclosureUrl" urls
      = Some (default (JStr "") (entry_field self v "deviceStorageDisclosureUrl")) /\
    (gvl_vendors_dict self = [] ->
     dict_lookup "error" urls = Some (JStr "GVL not loaded or empty")) /\
    (gvl_vendors_dict self <> [] ->
     gvl_entry self v = None \/ gvl_entry self v = Some (JObj []) ->
     dict_lookup "error" urls
       = Some (JStr ("Vendor ID " +:+ str_of_int v +:+ " not found in GVL"))) /\
    (forall o, gvl_entry self v = Some (JObj o) -> o <> [] ->
       dict_lookup "error" urls = None).
Proof.
  intros Hmap.
  destruct (entry_is_mapping_inv _ _ Hmap) as (o & Ho & Hfield).
  rewrite run_get_vendor_urls, Ho, !Hfield.
  destruct (gvl_vendors_dict self) as [| kv d] eqn:Hd; simpl.
  - assert (o = []) as ->.
    { rewrite (gvl_entry_empty _ _ Hd) in Ho. simpl in Ho. congruence. }
    eexists. split; [reflexivity |]. repeat split; try reflexivity.
    + intros Hne. contradiction.
    + intros o' Hentry. rewrite (gvl_entry_empty _ _ Hd) in Hentry. discriminate.
  - destruct o as [| kv' o']; simpl.
    + eexists. split; [reflexivity |]. repeat split; try reflexivity.
      * intros Habs. discriminate.
      * intros o' Hentry Hne. rewrite Hentry in Ho. simpl in Ho. congruence.
    + eexists. split; [reflexivity |]. repeat split; try reflexivity.
      * intros Habs. discriminate.
      * intros _ [Hnone | Hemp]; rewrite ?Hnone, ?Hemp in Ho; simpl in Ho; discriminate.
Qed.

Lemma vendor_urls_outcomes_witness :
  exists urls,
    get_vendor_urls 7 (instance sparse_gvl [] None None)
      = (Ok urls, instance sparse_gvl [] None None) /\
    dict_lookup "policyUrl" urls = Some (JStr "https://seven.example/privacy") /\
    dict_lookup "error" urls = None.
Proof.
  destruct (vendor_urls_outcomes (instance sparse_gvl [] None None) 7)
    as (urls & Hrun & Hpolicy & _ & _ & _ & Hfound).
  - intros e He. vm_compute in He. injection He as <-. reflexivity.
  - exists urls. split; [exact Hrun |]. split; [exact Hpolicy |].
    eapply Hfound; [vm_compute; reflexivity | discriminate].
Defined.

(** X10. The URL lookup and the detail resolver agree: for every vendor
    whose entry, if any, is a mapping, the two URLs returned by
    [get_vendor_urls] are the two URL fields of the detail record. *)
Theorem vendor_urls_agree_with_details self v :
  entry_is_mapping self v ->
  exists urls details,
    get_vendor_urls v self = (Ok urls, self) /\
    _get_vendor_details v self = (Ok details, self) /\
    dict_lookup "policyUrl" urls = dict_lookup "policyUrl" details /\
    dict_lookup "deviceStorageDisclosureUrl" urls
      = dict_lookup "deviceStorageDisclosureUrl" details.
Proof.
  intros Hmap.
  destruct (entry_is_mapping_inv _ _ Hmap) as (o & Ho & Hfield).
  destruct (run__get_vendor_details v self o Ho) as (name & Hdetails & _).
  rewrite run_get_vendor_urls, Ho, Hdetails.
  destruct (gvl_vendors_dict self) as [| kv d] eqn:Hd; simpl.
  - assert (o = []) as ->.
    { rewrite (gvl_entry_empty _ _ Hd) in Ho. simpl in Ho. congruence. }
    eexists _, _. repeat split.
  - destruct o as [| kv' o']; simpl; eexists _, _; repeat split.
Qed.

Lemma vendor_urls_agree_with_details_witness :
  exists urls details,
    get_vendor_urls 9 (instance sparse_gvl [] None None)
      = (Ok urls, instance sparse_gvl [] None None) /\
    _get_vendor_details 9 (instance sparse_gvl [] None None)
      = (Ok details, instance sparse_gvl [] None None) /\
    dict_lookup "policyUrl" urls = dict_lookup "policyUrl" details /\
    dict_lookup "deviceStorageDisclosureUrl" urls
      = dict_lookup "deviceStorageDisclosureUrl" details.
Proof.
  apply (vendor_urls_agree_with_details (instance sparse_gvl [] None None) 9).
  intros e He. vm_compute in He. injection He as <-. reflexivity.
Defined.

(** X11. A GVL entry that is not a mapping: when it is false in Python's
    sense ([null], [0], an empty string or list) the URL lookup reports
    the vendor as not found; when it is true (a non-empty list or string,
    a number) the lookup raises [AttributeError]. *)
Theorem vendor_urls_entry_not_mapping self v entry :
  gvl_entry self v = Some entry ->
  is_dict entry = false ->
  if truthy entry
  then exists e, get_vendor_urls v self = (Raise e, self) /\ is_attribute_error e
  else get_vendor_urls v self =
         (Ok [("policyUrl", JStr ""); ("deviceStorageDisclosureUrl", JStr "");
              ("error", JStr ("Vendor ID " +:+ str_of_int v +:+ " not found in GVL"))],
          self).
Proof.
  intros Hentry Hdict. rewrite run_get_vendor_urls, Hentry.
  assert (Hloaded : dict_truthy (gvl_vendors_dict self) = true).
  { unfold gvl_entry in Hentry. now destruct (gvl_vendors_dict self). }
  rewrite Hloaded. simpl default. simpl negb. cbv iota.
  destruct (truthy entry); simpl; [| reflexivity].
  destruct entry; try discriminate; simpl; eexists; split; reflexivity.
Qed.

Lemma vendor_urls_entry_not_mapping_witness :
  exists e,
    get_vendor_urls 7 (instance broken_gvl [] None None)
      = (Raise e, instance broken_gvl [] None None) /\
    is_attribute_error e.
Proof.
  apply (vendor_urls_entry_not_mapping (instance broken_gvl [] None None) 7 (JList [JInt 1])).
  - vm_compute. reflexivity.
  - reflexivity.
Defined.

(** ** More on the CMP resolver *)

(** X12. The CMP resolver never raises, and its answer is of one of three
    kinds: a diagnostic with an ['error'] entry; the "CMP ID not set"
    placeholder; or the value the CMP list index stores under the string
    form of the non-zero CMP id of the consent object. *)
Theorem cmp_details_outcomes self :
  exists r,
    get_cmp_details self = (Ok r, self) /\
    (is_Some (field_of r "error") \/
     (exists cmp_id,
        r = JObj [("id", json_of_cmp_id cmp_id);
                  ("name", JStr "unknown (CMP ID not set)")]) \/
     (exists co z,
        consent_object self = Some co /\
        co_cmp_id co = Some (Some z) /\
        z <> 0 /\
        dict_lookup (str_of_int z) (cmp_list_dict self) = Some r /\
        truthy r = true)).
Proof.
  unfold get_cmp_details, bind, attr, ret.
  destruct (consent_object self) as [co |] eqn:Hco; [| eexists; split; [reflexivity |]; left; simpl; eauto].
  destruct (co_cmp_id co) as [cmp_id |] eqn:Hid;
    [| eexists; split; [reflexivity |]; left; simpl; eauto].
  destruct (cmp_id_truthy cmp_id) eqn:Hset; simpl;
    [| eexists; split; [reflexivity |]; right; left; eauto].
  destruct (dict_truthy (cmp_list_dict self)); simpl;
    [| eexists; split; [reflexivity |]; left; simpl; eauto].
  destruct (dict_lookup (str_of_cmp_id cmp_id) (cmp_list_dict self)) as [entry |] eqn:Hentry;
    simpl; [| eexists; split; [reflexivity |]; left; simpl; eauto].
  destruct (truthy entry) eqn:Htrue;
    [| eexists; split; [reflexivity |]; left; simpl; eauto].
  eexists. split; [reflexivity |]. right. right.
  destruct cmp_id as [z |]; [| discriminate].
  exists co, z. repeat split; try assumption.
  intros ->. discriminate.
Qed.

(** X13. When the CMP id of the consent object is a non-zero integer and
    the lookup fails (the CMP list index is empty, or holds nothing, or
    something false in Python's sense, under the string form of the id),
    the answer carries that id, an ['error'] entry, and a name that tells
    an index that was not loaded from an id that was not found. *)
Theorem cmp_lookup_failure self co z :
  consent_object self = Some co ->
  co_cmp_id co = Some (Some z) ->
  z <> 0 ->
  (forall e, dict_lookup (str_of_int z) (cmp_list_dict self) = Some e -> truthy e = false) ->
  exists r,
    get_cmp_details self = (Ok (JObj r), self) /\
    dict_lookup "id" r = Some (JInt z) /\
    is_Some (dict_lookup "error" r) /\
    dict_lookup "name" r =
      Some (JStr (if dict_truthy (cmp_list_dict self)
                  then "unknown (Not found in CMP list)"
                  else "unknown (CMP list not loaded)")).
Proof.
  intros Hco Hid Hz Hmiss.
  unfold get_cmp_details, bind, attr, ret. rewrite Hco, Hid. simpl.
  destruct (Z.eqb_spec z 0) as [| _]; [contradiction |]. simpl.
  destruct (dict_truthy (cmp_list_dict self)); simpl.
  - destruct (dict_lookup (str_of_int z) (cmp_list_dict self)) as [entry |] eqn:Hentry; simpl.
    + rewrite (Hmiss entry eq_refl). eexists. repeat split; simpl; eauto.
    + eexists. repeat split; simpl; eauto.
  - eexists. repeat split; simpl; eauto.
Qed.

Lemma cmp_lookup_failure_witness :
  exists r,
    get_cmp_details (instance [] sample_cmps (Some (consent_of (Some (Some 12)) None)) None)
      = (Ok (JObj r),
         instance [] sample_cmps (Some (consent_of (Some (Some 12)) None)) None) /\
    dict_lookup "id" r = Some (JInt 12) /\
    dict_lookup "name" r = Some (JStr "unknown (Not found in CMP list)").
Proof.
  destruct (cmp_lookup_failure
              (instance [] sample_cmps (Some (consent_of (Some (Some 12)) None)) None)
              (consent_of (Some (Some 12)) None) 12)
    as (r & Hrun & Hidr & _ & Hname).
  - reflexivity.
  - reflexivity.
  - discriminate.
  - intros e He. vm_compute in He. discriminate.
  - exists r. repeat split; assumption.
Defined.

(** ** Loading the reference files *)

Lemma dict_set_fresh k v (d : dict) :
  ~ In k (map fst d) -> dict_set k v d = (d ++ [(k, v)])%list.
Proof.
  induction d as [| [k' v'] d IH]; simpl; intros Hfresh; [reflexivity |].
  destruct (String.eqb_spec k k') as [-> | Hne]; [tauto |].
  f_equal. apply IH. tauto.
Qed.

Lemma fold_dict_set_distinct (d acc : dict) :
  List.NoDup (map fst (acc ++ d)%list) ->
  fold_left (fun a kv => dict_set (fst kv) (snd kv) a) d acc = (acc ++ d)%list.
Proof.
  revert acc. induction d as [| [k v] d IH]; intros acc Hnd; simpl.
  - now rewrite app_nil_r.
  - rewrite dict_set_fresh.
    + rewrite IH; rewrite <- app_assoc; [reflexivity | exact Hnd].
    + rewrite map_app in Hnd. simpl in Hnd.
      apply NoDup_remove_2 in Hnd. intros Hin. apply Hnd.
      apply in_or_app. now left.
Qed.

(** Indexing a mapping whose keys are distinct keeps it as it is. *)
Lemma str_keyed_distinct (d : dict) : List.NoDup (map fst d) -> str_keyed d = d.
Proof. intros Hnd. unfold str_keyed. now rewrite fold_dict_set_distinct. Qed.

Section Loading.

Variable read_json : string -> Res json.
Variable decode : string -> Res ConsentObject.

Lemma _load_gvl_success self doc vendors :
  read_json (gvl_filepath self) = Ok (JObj doc) ->
  dict_lookup "vendors" doc = Some (JObj vendors) ->
  _load_gvl read_json self =
    (Ok tt, set_gvl_vendors_dict (str_keyed vendors) (set_gvl_data (Some (JObj doc)) self)).
Proof.
  intros Hread Hvendors.
  unfold _load_gvl, try_except, bind, attr, lift, assign.
  rewrite Hread. simpl. rewrite Hvendors. reflexivity.
Qed.

Lemma _load_cmp_list_success self doc :
  read_json (cmp_list_filepath self) = Ok (JObj doc) ->
  (forall j, dict_lookup "cmps" doc = Some j -> is_dict j = true) ->
  exists cmps,
    default (JObj doc) (dict_lookup "cmps" doc) = JObj cmps /\
    _load_cmp_list read_json self =
      (Ok tt, set_cmp_list_dict (str_keyed cmps) (set_cmp_list_data (Some (JObj doc)) self)).
Proof.
  intros Hread Hcmps.
  unfold _load_cmp_list, try_except, bind, attr, lift, assign.
  rewrite Hread. simpl.
  destruct (dict_lookup "cmps" doc) as [j |]; simpl.
  - specialize (Hcmps j eq_refl). destruct j; try discriminate. eauto.
  - eauto.
Qed.

(** X14. A GVL file that is a mapping with a ['vendors'] mapping is
    indexed as it is: after construction the GVL index holds the vendors
    of the file, under their keys and in their order, and every lookup in
    the index is a lookup in the file.  (The keys of a JSON object read by
    [json.load] are distinct.) *)
Theorem gvl_loaded cs gp cp doc vendors :
  read_json gp = Ok (JObj doc) ->
  dict_lookup "vendors" doc = Some (JObj vendors) ->
  List.NoDup (map fst vendors) ->
  exists self,
    __init__ read_json decode cs gp cp = (Ok tt, self) /\
    gvl_vendors_dict self = vendors /\
    forall v, gvl_entry self v = dict_lookup (str_of_int v) vendors.
Proof.
  intros Hread Hvendors Hnd. unfold __init__.
  match goal with |- context [bind _ _ ?s] => set (s0 := s) end.
  rewrite (run_bind_ok _ _ _ _ _ (_load_gvl_success s0 doc vendors Hread Hvendors)).
  match goal with |- context [bind _ _ ?s] => set (s1 := s) end.
  destruct (_load_cmp_list_frame read_json s1) as (s2 & Hrun2 & _ & Hgvl2 & _).
  destruct (_decode_tcf_run decode s2) as (s3 & Hrun3 & Hgvl3 & _).
  rewrite (run_bind_ok _ _ _ _ _ Hrun2).
  exists s3. split; [exact Hrun3 |].
  assert (Hidx : gvl_vendors_dict s3 = vendors).
  { rewrite Hgvl3, Hgvl2. simpl. now apply str_keyed_distinct. }
  split; [exact Hidx |]. intros v. unfold gvl_entry. now rewrite Hidx.
Qed.

(** X15. The CMP list file is accepted in two shapes: a mapping with a
    ['cmps'] mapping, whose content becomes the index, and a mapping
    without a ['cmps'] key, which becomes the index itself. *)
Theorem cmp_list_loaded cs gp cp doc :
  read_json cp = Ok (JObj doc) ->
  (forall j, dict_lookup "cmps" doc = Some j -> is_dict j = true) ->
  (forall cmps, dict_lookup "cmps" doc = Some (JObj cmps) -> List.NoDup (map fst cmps)) ->
  (dict_lookup "cmps" doc = None -> List.NoDup (map fst doc)) ->
  exists self,
    __init__ read_json decode cs gp cp = (Ok tt, self) /\
    (forall cmps, dict_lookup "cmps" doc = Some (JObj cmps) -> cmp_list_dict self = cmps) /\
    (dict_lookup "cmps" doc = None -> cmp_list_dict self = doc).
Proof.
  intros Hread Hshape Hnested Hbare. unfold __init__.
  match goal with |- context [bind _ _ ?s] => set (s0 := s) end.
  destruct (_load_gvl_frame read_json s0) as (s1 & Hrun1 & _ & _ & Hcp1 & _).
  rewrite (run_bind_ok _ _ _ _ _ Hrun1).
  assert (Hread1 : read_json (cmp_list_filepath s1) = Ok (JObj doc)).
  { now rewrite Hcp1. }
  destruct (_load_cmp_list_success s1 doc Hread1 Hshape) as (cmps & Hcmps & Hrun2).
  rewrite (run_bind_ok _ _ _ _ _ Hrun2).
  match goal with |- context [_decode_tcf _ ?s] => set (s2 := s) end.
  destruct (_decode_tcf_run decode s2) as (s3 & Hrun3 & _ & Hcmp3 & _).
  exists s3. split; [exact Hrun3 |].
  rewrite Hcmp3. simpl. split.
  - intros cmps' Hsome. rewrite Hsome in Hcmps. simpl in Hcmps. injection Hcmps as <-.
    apply str_keyed_distinct. now apply Hnested.
  - intros Hnone. rewrite Hnone in Hcmps. simpl in Hcmps. injection Hcmps as <-.
    apply str_keyed_distinct. now apply Hbare.
Qed.

(** X16. An empty consent string, or an argument that is not a string, is
    rejected before the decoder is called: the instance built does not
    depend on the decoder. *)
Theorem empty_string_skips_decoder other_decoder cs gp cp :
  default "" cs = "" ->
  __init__ read_json decode cs gp cp = __init__ read_json other_decoder cs gp cp.
Proof.
  intros Hempty. unfold __init__.
  match goal with |- context [bind _ _ ?s] => set (s0 := s) end.
  destruct (_load_gvl_frame read_json s0) as (s1 & Hrun1 & Hcs1 & _).
  destruct (_load_cmp_list_frame read_json s1) as (s2 & Hrun2 & Hcs2 & _).
  rewrite !(run_bind_ok _ _ _ _ _ Hrun1), !(run_bind_ok _ _ _ _ _ Hrun2).
  unfold _decode_tcf.
  rewrite !(run_bind_ok _ _ _ _ _ (run_attr _ _)), Hcs2, Hcs1.
  subst s0. simpl. now rewrite Hempty.
Qed.

(** X17. After construction exactly one of the consent object and the
    error state is set: either the decoder produced an object and there
    is no error, or there is no object and the error state holds a
    non-empty message. *)
Theorem object_or_error cs gp cp :
  exists self,
    __init__ read_json decode cs gp cp = (Ok tt, self) /\
    ((exists co, consent_object self = Some co /\ error_state self = None) \/
     (consent_object self = None /\
      exists msg, error_state self = Some msg /\ msg <> "")).
Proof.
  destruct (__init___run read_json decode cs gp cp) as (self & Hrun & _ & _ & Hdec).
  exists self. split; [exact Hrun |].
  destruct (if String.eqb (default "" cs) "" then None
            else match decode (default "" cs) with
                 | Ok co => Some co
                 | Raise _ => None
                 end) as [co |].
  - left. exists co. exact Hdec.
  - right. destruct Hdec as (Hco & msg & Herr & Hmsg).
    split; [exact Hco |]. exists msg. split; [exact Herr |].
    intros ->. discriminate.
Qed.

End Loading.

Lemma gvl_loaded_witness :
  exists self,
    __init__ both_files accept_all (Some "CQOK") "vendor-list.json" "cmp-list.json"
      = (Ok tt, self) /\
    gvl_vendors_dict self = sparse_gvl.
Proof.
  destruct (gvl_loaded both_files accept_all (Some "CQOK")
              "vendor-list.json" "cmp-list.json"
              [("gvlSpecificationVersion", JInt 3); ("vendors", JObj sparse_gvl)] sparse_gvl)
    as (self & Hrun & Hidx & _).
  - reflexivity.
  - reflexivity.
  - repeat constructor; simpl; intuition discriminate.
  - exists self. split; assumption.
Defined.

Lemma cmp_list_loaded_witness :
  exists self,
    __init__ both_files accept_all (Some "CQOK") "vendor-list.json" "cmp-list.json"
      = (Ok tt, self) /\
    cmp_list_dict self = sample_cmps.
Proof.
  destruct (cmp_list_loaded both_files accept_all (Some "CQOK")
              "vendor-list.json" "cmp-list.json" sample_cmps)
    as (self & Hrun & _ & Hbare).
  - reflexivity.
  - intros j Hj. vm_compute in Hj. discriminate.
  - intros cmps Hj. vm_compute in Hj. discriminate.
  - intros _. repeat constructor; simpl; intuition discriminate.
  - exists self. split; [exact Hrun |]. apply Hbare. reflexivity.
Defined.

Lemma empty_string_skips_decoder_witness :
  __init__ both_files accept_all None "vendor-list.json" "cmp-list.json" =
  __init__ both_files reject_all None "vendor-list.json" "cmp-list.json".
Proof. apply empty_string_skips_decoder. reflexivity. Defined.

(** ** The metadata *)

Section Metadata.

Variable isoformat_utc : datetime -> Res string.
Variable datetime_str : datetime -> string.
Variable decode_utf8_replace : list Byte.byte -> Res string.

Lemma _safe_get_ok name self co :
  consent_object self = Some co ->
  datetimes_render isoformat_utc co ->
  exists j,
    _safe_get isoformat_utc datetime_str decode_utf8_replace name self = (Ok j, self) /\
    forall j', plain_json (getattr_or_none co name) = Some j' -> j = j'.
Proof.
  intros Hco Hdt.
  unfold _safe_get. rewrite (run_bind_ok _ _ _ _ _ (run_attr _ _)), Hco.
  destruct (getattr_or_none co name) as [| z | b | s | bs | d] eqn:Hattr;
    try (eexists; split; [reflexivity |]; intros j' Hj; now injection Hj as <-).
  - unfold try_except, bind, lift, ret.
    destruct (decode_utf8_replace bs); eexists; split; try reflexivity; discriminate.
  - unfold try_except, bind, lift, ret, raise.
    destruct (isoformat_utc d) as [s | e] eqn:Hiso.
    + eexists. split; [reflexivity | discriminate].
    + rewrite (Hdt name d e Hattr Hiso). eexists. split; [reflexivity | discriminate].
Qed.

(** X18. On an instance with a consent object, [get_metadata] returns the
    thirteen metadata keys in their order, followed by
    ['initialization_error'] exactly when the error state is set; every
    attribute that is [None], an integer, a boolean or a string is passed
    on unchanged, a missing attribute is [None], and a [bytes] value that
    cannot be decoded does not make the call raise.  The only way for the
    call to raise is a [datetime] whose rendering raises something other
    than [ValueError] and [OSError], which the hypothesis excludes. *)
Theorem metadata_fields self co :
  consent_object self = Some co ->
  datetimes_render isoformat_utc co ->
  exists d,
    get_metadata isoformat_utc datetime_str decode_utf8_replace self = (Ok d, self) /\
    map fst d =
      (map fst metadata_attrs
       ++ if str_truthy (error_state self) then ["initialization_error"] else [])%list /\
    (forall k attr j,
       In (k, attr) metadata_attrs ->
       plain_json (getattr_or_none co attr) = Some j ->
       dict_lookup k d = Some j) /\
    (forall msg, error_state self = Some msg -> msg <> "" ->
       dict_lookup "initialization_error" d = Some (JStr msg)).
Proof.
  intros Hco Hdt. unfold get_metadata.
  rewrite (run_bind_ok _ _ _ _ _ (run_attr _ _)), Hco.
  rewrite (bool_decide_eq_true_2 (is_Some (Some co))) by eauto.
  change (negb true) with false. cbv iota.
  repeat match goal with
  | |- context [bind (_safe_get _ _ _ ?n) _ self] =>
      let j := fresh "j" in
      let Hrun := fresh "Hrun" in
      let Hplain := fresh "Hplain" in
      destruct (_safe_get_ok n self co Hco Hdt) as (j & Hrun & Hplain);
      rewrite (run_bind_ok _ _ _ _ _ Hrun); clear Hrun
  end.
  cbv zeta. rewrite (run_bind_ok _ _ _ _ _ (run_attr _ _)).
  destruct (str_truthy (error_state self)) eqn:Herr; simpl;
    (eexists; split; [reflexivity |]; split; [reflexivity |]; split;
     [ intros k attr val Hin Hval; simpl in Hin;
       repeat (destruct Hin as [Hin | Hin];
               [injection Hin as <- <-; simpl; f_equal; auto |]);
       contradiction
     | intros msg Hmsg Hne; rewrite Hmsg in *; simpl in *]).
  - reflexivity.
  - destruct (String.eqb_spec msg ""); [contradiction | discriminate].
Qed.

End Metadata.

Lemma metadata_fields_witness :
  exists d,
    get_metadata iso_example str_example utf8_example
      (instance [] [] (Some sample_consent) None)
    = (Ok d, instance [] [] (Some sample_consent) None) /\
    dict_lookup "tcf_version" d = Some (JInt 2) /\
    dict_lookup "cmp_id" d = Some (JInt 300) /\
    dict_lookup "publisher_cc" d = Some JNull.
Proof.
  destruct (metadata_fields iso_example str_example utf8_example
              (instance [] [] (Some sample_consent) None) sample_consent)
    as (d & Hrun & _ & Hplain & _).
  - reflexivity.
  - intros name d e _ Hiso. discriminate.
  - exists d. split; [exact Hrun |]. repeat split.
    + apply (Hplain "tcf_version" "version"); [simpl; tauto | reflexivity].
    + apply (Hplain "cmp_id" "cmp_id"); [simpl; tauto | reflexivity].
    + apply (Hplain "publisher_cc" "publisher_cc"); [simpl; tauto | reflexivity].
Defined.

(** ** A consent object without a vendor map *)

(** X19. When the consent object has no [consented_vendors] attribute the
    list of consented vendors, the matcher and the flag queries are empty;
    when it has no [legitimate_interest_vendors] attribute so is the
    legitimate-interest query.  None of them reads the GVL or raises. *)
Theorem missing_vendor_map self co :
  consent_object self = Some co ->
  (co_consented_vendors co = None ->
   (forall b, get_consented_vendors b self = (Ok [], self)) /\
   (forall key ids b,
      _get_consented_vendors_matching_gvl_list key ids b self = (Ok ∅, self)) /\
   (forall key, _get_consented_vendors_by_gvl_flag key self = (Ok ∅, self))) /\
  (co_legitimate_interest_vendors co = None ->
   get_vendors_using_legitimate_interest self = (Ok ∅, self)).
Proof.
  intros Hco.
  assert (Hguard : unavailable self = (Ok (str_truthy (error_state self)), self)).
  { rewrite run_unavailable_any, Hco.
    now rewrite (bool_decide_eq_true_2 (is_Some (Some co))) by eauto. }
  split.
  - intros Hnone. repeat split.
    + intros b. unfold get_consented_vendors.
      rewrite (run_bind_ok _ _ _ _ _ Hguard).
      destruct (str_truthy (error_state self)); [reflexivity |].
      now rewrite (run_bind_ok _ _ _ _ _ (run_vendor_map _ _ _ Hco)), Hnone.
    + intros key ids b. unfold _get_consented_vendors_matching_gvl_list.
      rewrite (run_bind_ok _ _ _ _ _ Hguard).
      destruct (str_truthy (error_state self)); [reflexivity |].
      now rewrite (run_bind_ok _ _ _ _ _ (run_vendor_map _ _ _ Hco)), Hnone.
    + intros key. unfold _get_consented_vendors_by_gvl_flag.
      rewrite (run_bind_ok _ _ _ _ _ Hguard).
      destruct (str_truthy (error_state self)); [reflexivity |].
      now rewrite (run_bind_ok _ _ _ _ _ (run_vendor_map _ _ _ Hco)), Hnone.
  - intros Hnone. unfold get_vendors_using_legitimate_interest.
    rewrite (run_bind_ok _ _ _ _ _ Hguard).
    destruct (str_truthy (error_state self)); [reflexivity |].
    now rewrite (run_bind_ok _ _ _ _ _ (run_vendor_map _ _ _ Hco)), Hnone.
Qed.

Lemma missing_vendor_map_witness :
  get_consented_vendors true
    (instance broken_gvl [] (Some (consent_of (Some (Some 300)) None)) None)
  = (Ok [], instance broken_gvl [] (Some (consent_of (Some (Some 300)) None)) None).
Proof.
  apply (proj1 (missing_vendor_map
                  (instance broken_gvl [] (Some (consent_of (Some (Some 300)) None)) None)
                  (consent_of (Some (Some 300)) None) eq_refl) eq_refl).
Defined.

(** ** Exceptions that escape *)

Lemma for_each_raise {A S} (l : list A) (body : A -> S -> M S) x self :
  (forall y acc, readonly (body y acc)) ->
  x ∈ l ->
  (forall acc, exists e, fst (body x acc self) = Raise e) ->
  forall acc, exists e, for_each l body acc self = (Raise e, self).
Proof.
  intros Hro Hin Hraise.
  induction l as [| y l IH]; intros acc; [inversion Hin |].
  simpl. unfold bind. rewrite (readonly_run _ self (Hro y acc)).
  destruct (fst (body y acc self)) as [acc' | e] eqn:Hy; [| eauto].
  apply elem_of_cons in Hin as [-> | Hin].
  - destruct (Hraise acc) as [e He]. congruence.
  - apply (IH Hin).
Qed.

(** X20. The matcher does not skip a vendor it cannot read: when some
    vendor with consent has a GVL entry that is not a mapping, or a value
    under the key that cannot be made a set, and the list of required ids
    is not empty, the whole call raises.  With an empty list of ids the
    GVL is not read and the call returns the empty mapping. *)
Theorem matching_raises self co m key required_ids require_all v :
  available self co ->
  co_consented_vendors co = Some m ->
  (v, true) ∈ m ->
  is_ok (declared_ids_set self key v) = false ->
  (required_ids <> [] ->
   exists e,
     _get_consented_vendors_matching_gvl_list key required_ids require_all self
       = (Raise e, self)) /\
  _get_consented_vendors_matching_gvl_list key [] require_all self = (Ok ∅, self).
Proof.
  intros [Hco Herr] Hm Hin Hbad. split.
  - intros Hne. unfold _get_consented_vendors_matching_gvl_list.
    rewrite (run_bind_ok _ _ _ _ _ (run_unavailable _ _ Hco Herr)).
    rewrite (run_bind_ok _ _ _ _ _ (run_vendor_map _ _ _ Hco)), Hm.
    cbv zeta. rewrite bool_decide_eq_false_2.
    + apply for_each_raise with (x := (v, true)).
      * intros [y c] acc. readonly_tac.
      * exact Hin.
      * intros acc.
        rewrite (run_bind_ok _ _ _ _ _ (run__get_vendor_gvl_data v self)).
        unfold declared_ids_set in Hbad. unfold bind, lift.
        destruct (py_get (default (JObj []) (gvl_entry self v)) key (JList []))
          as [declared | e]; [| eauto].
        destruct (py_set declared) as [s | e]; [discriminate | eauto].
    + destruct required_ids as [| z ids]; [contradiction |].
      intros Hset. assert (Hz : z ∈ (list_to_set (z :: ids) : gset Z)).
      { apply elem_of_list_to_set. left. }
      rewrite Hset in Hz. now apply not_elem_of_empty in Hz.
  - unfold _get_consented_vendors_matching_gvl_list.
    rewrite (run_bind_ok _ _ _ _ _ (run_unavailable _ _ Hco Herr)).
    rewrite (run_bind_ok _ _ _ _ _ (run_vendor_map _ _ _ Hco)), Hm.
    cbv zeta. now rewrite bool_decide_eq_true_2 by reflexivity.
Qed.

Lemma matching_raises_witness :
  exists e,
    _get_consented_vendors_matching_gvl_list "purposes" [1] false
      (instance broken_gvl [] (Some (consent_of None (Some [(8, true); (7, true)]))) None)
    = (Raise e,
       instance broken_gvl [] (Some (consent_of None (Some [(8, true); (7, true)]))) None).
Proof.
  apply (proj1 (matching_raises
                  (instance broken_gvl []
                     (Some (consent_of None (Some [(8, true); (7, true)]))) None)
                  (consent_of None (Some [(8, true); (7, true)]))
                  [(8, true); (7, true)] "purposes" [1] false 7
                  (conj eq_refl eq_refl) eq_refl
                  ltac:(right; left) ltac:(vm_compute; reflexivity))).
  discriminate.
Defined.

Lemma run_bind_readonly {A B} (m : M A) (k : A -> M B) self :
  readonly m ->
  bind m k self =
    match fst (m self) with
    | Ok a => k a self
    | Raise e => (Raise e, self)
    end.
Proof. intros Hro. unfold bind. now rewrite (readonly_run _ self Hro). Qed.

Section MetadataRaises.

Variable isoformat_utc : datetime -> Res string.
Variable datetime_str : datetime -> string.
Variable decode_utf8_replace : list Byte.byte -> Res string.

Lemma _safe_get_raise name self co d e :
  consent_object self = Some co ->
  getattr_or_none co name = ADatetime d ->
  isoformat_utc d = Raise e ->
  exn_is ValueError e || exn_is OSError e = false ->
  _safe_get isoformat_utc datetime_str decode_utf8_replace name self = (Raise e, self).
Proof.
  intros Hco Hattr Hiso Hkind.
  unfold _safe_get. rewrite (run_bind_ok _ _ _ _ _ (run_attr _ _)), Hco, Hattr.
  unfold try_except, bind, lift, raise. now rewrite Hiso, Hkind.
Qed.

(** X21. An exception of the rendering of a [datetime] attribute whose
    class is neither [ValueError] nor [OSError] nor a subclass of one of
    them (an [OverflowError], say) is not caught: when one of the thirteen
    attributes read by [get_metadata] is such a [datetime], the call
    raises. *)
Theorem metadata_raises self co key attr d e :
  consent_object self = Some co ->
  In (key, attr) metadata_attrs ->
  getattr_or_none co attr = ADatetime d ->
  isoformat_utc d = Raise e ->
  exn_is ValueError e || exn_is OSError e = false ->
  exists e',
    get_metadata isoformat_utc datetime_str decode_utf8_replace self = (Raise e', self).
Proof.
  intros Hco Hin Hattr Hiso Hkind.
  pose proof (_safe_get_raise attr self co d e Hco Hattr Hiso Hkind) as Hraise.
  unfold get_metadata.
  rewrite (run_bind_ok _ _ _ _ _ (run_attr _ _)), Hco.
  rewrite (bool_decide_eq_true_2 (is_Some (Some co))) by eauto.
  change (negb true) with false. cbv iota.
  repeat match goal with
  | |- context [bind (_safe_get _ _ _ ?n) _ self] =>
      rewrite (run_bind_readonly _ _ self
                 (readonly__safe_get isoformat_utc datetime_str decode_utf8_replace n));
      let Hn := fresh "Hn" in
      destruct (fst (_safe_get isoformat_utc datetime_str decode_utf8_replace n self))
        eqn:Hn; [| eauto]
  end.
  exfalso. simpl in Hin.
  repeat (destruct Hin as [Hin | Hin];
          [injection Hin as <- <-; rewrite Hraise in *; simpl in *; discriminate |]).
  contradiction.
Qed.

End MetadataRaises.

(** A [FileNotFoundError] is an [OSError]: it is caught, and the plain
    rendering of the [datetime] is returned. *)
Example subclass_is_caught :
  fst (_safe_get (fun _ => Raise (Exn FileNotFoundError "no time zone data"))
         str_example utf8_example "created"
         (instance [] [] (Some sample_consent) None))
  = Ok (JStr "2024-01-01 00:00:00").
Proof. reflexivity. Qed.

Lemma metadata_raises_witness :
  exists e',
    get_metadata (fun _ => Raise (Exn OverflowError "date value out of range"))
      str_example utf8_example (instance [] [] (Some sample_consent) None)
    = (Raise e', instance [] [] (Some sample_consent) None).
Proof.
  apply (metadata_raises (fun _ => Raise (Exn OverflowError "date value out of range"))
           str_example utf8_example
           (instance [] [] (Some sample_consent) None) sample_consent
           "created" "created" (Datetime 1704067200000000 (Some 0))
           (Exn OverflowError "date value out of range")).
  - reflexivity.
  - simpl. tauto.
  - reflexivity.
  - reflexivity.
  - reflexivity.
Defined.
